(** * Tile rearrangement (qualifier.py): validation and reassembly

    A shallow embedding of [valid_input] and [rearrange_tiles] from
    [src/qualifier/qualifier.py], with the parts of the image library the
    code calls ([Image.open], [crop], [Image.new], [paste], [save]) modelled
    on an in-memory raster. *)

From stdpp Require Import gmap strings list fin_sets numbers.

Local Open Scope Z_scope.

(** ** Python exceptions and results *)

Record exception := Exception { exc_class : string; exc_msg : string }.

Definition ValueError : string → exception := Exception "ValueError".
Definition ZeroDivisionError : string → exception := Exception "ZeroDivisionError".
Definition IndexError : string → exception := Exception "IndexError".
Definition FileNotFoundError : string → exception := Exception "FileNotFoundError".

Inductive result (A : Type) : Type :=
  | Return (a : A)
  | Raise (e : exception).
Arguments Return {A} a.
Arguments Raise {A} e.

Global Instance result_ret : MRet result := λ A a, Return a.
Global Instance result_bind : MBind result := λ A B f r,
  match r with
  | Return a => f a
  | Raise e => Raise e
  end.

(** ** Python integer operators used by the code *)

(** [a % b]: floor modulo, raising on a zero divisor. *)
Definition py_mod (a b : Z) : result Z :=
  if decide (b = 0) then Raise (ZeroDivisionError "integer modulo by zero")
  else Return (a `mod` b).

(** [a // b]: floor division, raising on a zero divisor. *)
Definition py_floordiv (a b : Z) : result Z :=
  if decide (b = 0) then Raise (ZeroDivisionError "integer division or modulo by zero")
  else Return (a `div` b).

(** Truth value of an [int] in an [if]. *)
Definition truthy (n : Z) : bool := negb (n =? 0).

(** [len(set(ordering))] *)
Definition len_set (ordering : list Z) : Z :=
  Z.of_nat (size (list_to_set (C:=gset Z) ordering)).

(** ** valid_input *)

Definition valid_input (image_size tile_size : Z * Z) (ordering : list Z)
  : result bool :=
  let '(image_width, image_height) := image_size in
  let '(width, height) := tile_size in
  (* if (image_width % width) | (image_height % height): return False *)
  rw ← py_mod image_width width;
  rh ← py_mod image_height height;
  if truthy (Z.lor rw rh) then Return false else
  (* if len(set(ordering)) ^ (image_width // width) * (image_height // height) *)
  cols ← py_floordiv image_width width;
  rows ← py_floordiv image_height height;
  if truthy (Z.lxor (len_set ordering) (cols * rows)) then Return false
  else Return true.

(** ** Raster images

    The image library is outside the repository; the operations the code
    calls are modelled on a row-major pixel buffer.  A pixel is its packed
    integer value, and a fresh canvas is filled with zeros. *)

Abbreviation pixel := Z (only parsing).

(** A box is [(left, upper, right, lower)]. *)
Abbreviation box := (Z * Z * Z * Z)%type (only parsing).

Record image := Image {
  im_mode : string;
  im_size : Z * Z;
  im_format : option string;
  im_data : list (list pixel)
}.

(** An image file: the container format and the raster the codec decodes
    from it (the codec is taken to be lossless). *)
Record file := File {
  file_format : string;
  file_mode : string;
  file_size : Z * Z;
  file_data : list (list pixel)
}.

Definition decode (f : file) : image :=
  Image (file_mode f) (file_size f) (Some (file_format f)) (file_data f).

Definition encode (fmt : string) (im : image) : file :=
  File fmt (im_mode im) (im_size im) (im_data im).

(** Pixel at column [x], row [y]; zero outside the buffer. *)
Definition px (rows : list (list pixel)) (x y : Z) : pixel :=
  if decide (0 ≤ x ∧ 0 ≤ y) then
    default 0 (row ← rows !! Z.to_nat y; row !! Z.to_nat x)
  else 0.

Definition in_box (b : box) (x y : Z) : Prop :=
  let '(x0, y0, x1, y1) := b in x0 ≤ x < x1 ∧ y0 ≤ y < y1.

Global Instance in_box_dec b x y : Decision (in_box b x y).
Proof. destruct b as [[[x0 y0] x1] y1]; simpl; apply _. Defined.

(** [im.crop(box)]: a new image of the box's size; the part of the box
    outside the image reads as zero. *)
Definition crop (im : image) (b : box) : result image :=
  let '(x0, y0, x1, y1) := b in
  if decide (x1 < x0) then
    Raise (ValueError "Coordinate 'right' is less than 'left'")
  else if decide (y1 < y0) then
    Raise (ValueError "Coordinate 'lower' is less than 'upper'")
  else
    Return (Image (im_mode im) (x1 - x0, y1 - y0) None
              ((λ y, (λ x, px (im_data im) x y) <$> seqZ x0 (x1 - x0))
                 <$> seqZ y0 (y1 - y0))).

(** [dst.paste(im, box)] with a 4-tuple box: the sizes must agree; the
    pixels of [dst] inside the box are overwritten. *)
Definition paste (dst im : image) (b : box) : result image :=
  let '(x0, y0, x1, y1) := b in
  if decide (im_size im = (x1 - x0, y1 - y0)) then
    Return (Image (im_mode dst) (im_size dst) (im_format dst)
              (imap (λ j row,
                       imap (λ i p,
                               if decide (in_box b (Z.of_nat i) (Z.of_nat j))
                               then px (im_data im) (Z.of_nat i - x0) (Z.of_nat j - y0)
                               else p) row)
                    (im_data dst)))
  else Raise (ValueError "images do not match").

(** [Image.new(mode, size)] *)
Definition new_image (mode : string) (size : Z * Z) : result image :=
  let '(W, H) := size in
  if decide (W < 0 ∨ H < 0) then
    Raise (ValueError "Width and height must be >= 0")
  else
    Return (Image mode size None
              (replicate (Z.to_nat H) (replicate (Z.to_nat W) 0))).

(** [l[i]] on a Python list: negative indices count from the end. *)
Definition py_getitem {A} (l : list A) (i : Z) : result A :=
  let n := Z.of_nat (length l) in
  let j := if decide (i < 0) then i + n else i in
  if decide (0 ≤ j) then
    match l !! Z.to_nat j with
    | Some a => Return a
    | None => Raise (IndexError "list index out of range")
    end
  else Raise (IndexError "list index out of range").

(** ** The world: the file system and the calls made to the image library *)

Inductive handle := SourceImage | TileImage | CanvasImage.

Inductive event :=
  | EvOpen (path : string)
  | EvCrop (b : box)
  | EvNew (mode : string) (size : Z * Z)
  | EvPaste (b : box)
  | EvSave (path : string) (fmt : string)
  | EvClose (h : handle).

Record world := World {
  files : gmap string file;
  calls : list event
}.

(** Computations that read and write the world and may raise. *)
Definition Py (A : Type) : Type := world → result A * world.

Global Instance Py_ret : MRet Py := λ A a σ, (Return a, σ).
Global Instance Py_bind : MBind Py := λ A B f m σ,
  match m σ with
  | (Return a, σ') => f a σ'
  | (Raise e, σ') => (Raise e, σ')
  end.

Definition raise {A} (e : exception) : Py A := λ σ, (Raise e, σ).

Definition lift {A} (r : result A) : Py A := λ σ, (r, σ).

Definition call (ev : event) : Py unit :=
  λ σ, (Return (), World (files σ) (calls σ ++ [ev])).

(** [with ... as x: body]: the handle is closed on every exit path. *)
Definition with_closing {A} (h : handle) (body : Py A) : Py A :=
  λ σ, let '(r, σ') := body σ in
       (r, World (files σ') (calls σ' ++ [EvClose h])).

Definition Image_open (path : string) : Py image :=
  λ σ, match files σ !! path with
       | Some f => (Return (decode f), World (files σ) (calls σ ++ [EvOpen path]))
       | None => (Raise (FileNotFoundError path), σ)
       end.

Definition Image_new (mode : string) (size : Z * Z) : Py image :=
  im ← lift (new_image mode size); call (EvNew mode size);; mret im.

Definition Image_crop (im : image) (b : box) : Py image :=
  tile ← lift (crop im b); call (EvCrop b);; mret tile.

Definition Image_paste (dst im : image) (b : box) : Py image :=
  dst' ← lift (paste dst im b); call (EvPaste b);; mret dst'.

(** [im.save(path, format)]; with no format the library would look at the
    file extension, which is not modelled: [rearrange_tiles] always passes
    the format of an opened image.  Given a format this save always
    succeeds; a save that may fail is the parameter of
    [rearrange_tiles_with] below. *)
Definition Image_save (im : image) (path : string) (fmt : option string)
  : Py unit :=
  match fmt with
  | Some f => λ σ, (Return (),
                    World (<[path := encode f im]> (files σ))
                          (calls σ ++ [EvSave path f]))
  | None => raise (ValueError "unknown file extension")
  end.

(** A buffer is well formed for a size when it has that many rows of
    that many pixels. *)
Definition wf_rows (size : Z * Z) (rows : list (list pixel)) : Prop :=
  0 ≤ size.1 ∧ 0 ≤ size.2 ∧
  length rows = Z.to_nat size.2 ∧
  Forall (λ row, length row = Z.to_nat size.1) rows.

Definition wf_image (im : image) : Prop := wf_rows (im_size im) (im_data im).
Definition wf_file (f : file) : Prop := wf_rows (file_size f) (file_data f).

Definition box_size (b : box) : Z * Z :=
  let '(x0, y0, x1, y1) := b in (x1 - x0, y1 - y0).

Definition box_origin (b : box) : Z * Z :=
  let '(x0, y0, x1, y1) := b in (x0, y0).

(** No pixel lies in two boxes of the list. *)
Definition boxes_disjoint (boxes : list box) : Prop :=
  ∀ i j bi bj x y,
    boxes !! i = Some bi → boxes !! j = Some bj →
    in_box bi x y → in_box bj x y → i = j.

(** ** rearrange_tiles *)

(** The tile boxes, rows outermost (the divisors are non-zero once
    [valid_input] has returned):
    [[(x*width, y*height, (x+1)*width, (y+1)*height)
      for y in range(image_height // height)
      for x in range(image_width // width)]] *)
Definition tile_boxes (image_size tile_size : Z * Z) : list box :=
  let '(image_width, image_height) := image_size in
  let '(width, height) := tile_size in
  y ← seqZ 0 (image_height `div` height);
  x ← seqZ 0 (image_width `div` width);
  [(x * width, y * height, (x + 1) * width, (y + 1) * height)].

(** The loop [for image, box in zip(images, tiles)] where [images] is the
    generator [(source_image.crop(tiles[i]) for i in ordering)].  [zip]
    advances the generator first, so the crop of the next ordering entry
    happens (and may raise) before the box list is asked for its next
    element; the loop ends when either side is exhausted. *)
Fixpoint paste_loop (source_image : image) (tiles : list box)
    (ordering : list Z) (boxes : list box) (image_out : image) : Py image :=
  match ordering with
  | [] => mret image_out
  | i :: ordering' =>
      b ← lift (py_getitem tiles i);
      tile ← Image_crop source_image b;
      match boxes with
      | [] => mret image_out
      | box :: boxes' =>
          image_out' ← Image_paste image_out tile box;
          call (EvClose TileImage);;
          paste_loop source_image tiles ordering' boxes' image_out'
      end
  end.

(** The message of the [ValueError] raised on invalid input. *)
Abbreviation invalid_message :=
  "The tile size or ordering are not valid for the given image"%string
  (only parsing).

Definition rearrange_tiles (image_path : string) (tile_size : Z * Z)
    (ordering : list Z) (out_path : string) : Py unit :=
  source_image ← Image_open image_path;
  with_closing SourceImage (
    ok ← lift (valid_input (im_size source_image) tile_size ordering);
    if negb ok then
      raise (ValueError
               "The tile size or ordering are not valid for the given image")
    else
    let tiles := tile_boxes (im_size source_image) tile_size in
    image_out ← Image_new (im_mode source_image) (im_size source_image);
    with_closing CanvasImage (
      image_out' ← paste_loop source_image tiles ordering tiles image_out;
      Image_save image_out' out_path (im_format source_image))).

(** [rearrange_tiles] with the library's [save] taken as a parameter.
    The encoder is outside the repository: it may raise (an unwritable
    path, a format it cannot write) and may leave a partial file, and
    nothing is assumed about it here.  With [Image_save] for [save] this
    is [rearrange_tiles]. *)
Definition rearrange_tiles_with
    (save : image → string → option string → Py unit)
    (image_path : string) (tile_size : Z * Z)
    (ordering : list Z) (out_path : string) : Py unit :=
  source_image ← Image_open image_path;
  with_closing SourceImage (
    ok ← lift (valid_input (im_size source_image) tile_size ordering);
    if negb ok then
      raise (ValueError
               "The tile size or ordering are not valid for the given image")
    else
    let tiles := tile_boxes (im_size source_image) tile_size in
    image_out ← Image_new (im_mode source_image) (im_size source_image);
    with_closing CanvasImage (
      image_out' ← paste_loop source_image tiles ordering tiles image_out;
      save image_out' out_path (im_format source_image))).

(** The inverse of an arrangement: entry [j] is the position at which
    [j] occurs in [ordering] ([[ordering.index(j) for j in
    range(len(ordering))]]). *)
Definition inverse_ordering (ordering : list Z) : list Z :=
  (λ j, from_option (λ p, Z.of_nat p.1) 0 (list_find (λ v, v = j) ordering))
    <$> seqZ 0 (Z.of_nat (length ordering)).

(** The world after one more call to the image library. *)
Definition logged (ev : event) (σ : world) : world :=
  World (files σ) (calls σ ++ [ev]).

(** The calls made on behalf of one tile: its crop, its paste and the
    closing of the cropped image. *)
Definition tile_event (ev : event) : Prop :=
  match ev with
  | EvCrop _ | EvPaste _ | EvClose TileImage => True
  | _ => False
  end.

(** The position that the subscript [l[i]] reads in a list of length
    [n], for [-n ≤ i < n]: negative subscripts count from the end. *)
Definition wrap_index (n i : Z) : Z := if decide (i < 0) then i + n else i.

(** A subscript [i] is valid on a list of length [n]. *)
Definition valid_index (n i : Z) : Prop := - n ≤ i < n.

Global Instance valid_index_dec n i : Decision (valid_index n i).
Proof. unfold valid_index. apply _. Defined.

(** Composition of arrangements: [[P[q] for q in Q]]. *)
Definition compose_ordering (P Q : list Z) : list Z :=
  (λ q, default 0 (P !! Z.to_nat q)) <$> Q.

(** The box at flat index [k] of the raster scan of a grid with [cols]
    columns of [w] by [h] tiles: column [k mod cols] of row [k // cols]. *)
Definition grid_box (cols w h k : Z) : Z * Z * Z * Z :=
  let c := k `mod` cols in
  let r := k `div` cols in
  (c * w, r * h, (c + 1) * w, (r + 1) * h).

(** The calls of one turn of the loop: the tile is cropped from one box
    of the source, pasted at one box of the canvas, and closed. *)
Definition tile_calls (from_box to_box : Z * Z * Z * Z) : list event :=
  [EvCrop from_box; EvPaste to_box; EvClose TileImage].

(** ** Examples *)

Definition img42 : file :=
  File "PNG" "L" (4, 2) [[1; 2; 3; 4]; [5; 6; 7; 8]].

Definition img44 : file :=
  File "PNG" "L" (4, 4)
    [[1; 2; 3; 4]; [5; 6; 7; 8]; [9; 10; 11; 12]; [13; 14; 15; 16]].

(** A [save] that fails: the output path cannot be written. *)
Definition save_denied (im : image) (path : string) (fmt : option string)
  : Py unit :=
  raise (Exception "PermissionError" path).

Definition world0 : world :=
  World {[ "in42.png" := img42; "in44.png" := img44 ]} [].

(** ** Properties of valid_input *)

Lemma truthy_lor a b : truthy (Z.lor a b) = true ↔ a ≠ 0 ∨ b ≠ 0.
Proof.
  unfold truthy. rewrite negb_true_iff, Z.eqb_neq, Z.lor_eq_0_iff.
  destruct (decide (a = 0)), (decide (b = 0)); tauto.
Qed.

Lemma truthy_lxor a b : truthy (Z.lxor a b) = true ↔ a ≠ b.
Proof.
  unfold truthy. by rewrite negb_true_iff, Z.eqb_neq, Z.lxor_eq_0_iff.
Qed.

(** On non-zero tile dimensions the validator is the conjunction of the
    two divisibility checks and the distinct-count check. *)
Lemma valid_input_nonzero W H w h ordering :
  w ≠ 0 → h ≠ 0 →
  valid_input (W, H) (w, h) ordering =
    Return (bool_decide (W `mod` w = 0 ∧ H `mod` h = 0 ∧
                         len_set ordering = (W `div` w) * (H `div` h))).
Proof.
  intros Hw Hh. unfold valid_input, py_mod, py_floordiv.
  rewrite !decide_False by done. cbn.
  destruct (truthy (Z.lor _ _)) eqn:E1.
  - apply truthy_lor in E1. rewrite bool_decide_eq_false_2; [done|]. tauto.
  - apply not_true_iff_false in E1. rewrite truthy_lor in E1.
    destruct (truthy (Z.lxor _ _)) eqn:E2.
    + apply truthy_lxor in E2. rewrite bool_decide_eq_false_2; [done|]. tauto.
    + apply not_true_iff_false in E2. rewrite truthy_lxor in E2.
      rewrite bool_decide_eq_true_2; [done|].
      destruct (decide (W `mod` w = 0)), (decide (H `mod` h = 0)),
        (decide (len_set ordering = W `div` w * (H `div` h))); tauto.
Qed.

(** C4: with positive tile dimensions, the validator returns [False]
    whenever the tile width does not divide the image width or the tile
    height does not divide the image height, whatever [ordering] holds. *)
Theorem valid_input_rejects_indivisible W H w h (ordering : list Z) :
  0 < w → 0 < h →
  W `mod` w ≠ 0 ∨ H `mod` h ≠ 0 →
  valid_input (W, H) (w, h) ordering = Return false.
Proof.
  intros Hw Hh Hnd. rewrite valid_input_nonzero by lia.
  rewrite bool_decide_eq_false_2; [done|]. tauto.
Qed.

Lemma valid_input_rejects_indivisible_witness :
  valid_input (5, 4) (2, 2) [0; 1; 2; 3] = Return false.
Proof.
  apply valid_input_rejects_indivisible; [lia | lia | left; by vm_compute].
Defined.

(** C8: for positive tile dimensions the validator raises nothing: it
    returns a boolean for every image size and every ordering, and that
    boolean is a function of the three arguments alone (the embedding
    threads no state through it). *)
Theorem valid_input_total W H w h (ordering : list Z) :
  0 < w → 0 < h →
  ∃ b : bool,
    valid_input (W, H) (w, h) ordering = Return b ∧
    b = bool_decide (W `mod` w = 0 ∧ H `mod` h = 0 ∧
                     len_set ordering = (W `div` w) * (H `div` h)).
Proof.
  intros Hw Hh. eexists. split; [|reflexivity].
  apply valid_input_nonzero; lia.
Qed.

Lemma valid_input_total_witness :
  ∃ b : bool,
    valid_input (4, 4) (2, 2) [2; 3; 0; 1] = Return b ∧
    b = bool_decide (4 `mod` 2 = 0 ∧ 4 `mod` 2 = 0 ∧
                     len_set [2; 3; 0; 1] = (4 `div` 2) * (4 `div` 2)).
Proof. apply valid_input_total; lia. Defined.

Lemma len_set_ext (o1 o2 : list Z) :
  (∀ v, v ∈ o1 ↔ v ∈ o2) → len_set o1 = len_set o2.
Proof.
  intros Hv. unfold len_set. do 2 f_equal.
  apply set_eq. intros v. by rewrite !elem_of_list_to_set.
Qed.

(** C10: the validator's answer (a boolean, or the exception raised on a
    zero tile dimension) depends on [ordering] only through the set of its
    values: two orderings with the same members, whatever their lengths,
    element order or repetitions, get the same answer. *)
Theorem valid_input_value_set image_size tile_size (o1 o2 : list Z) :
  (∀ v, v ∈ o1 ↔ v ∈ o2) →
  valid_input image_size tile_size o1 = valid_input image_size tile_size o2.
Proof.
  intros Hv. destruct image_size as [W H], tile_size as [w h].
  unfold valid_input. by rewrite (len_set_ext o1 o2 Hv).
Qed.

Lemma valid_input_value_set_witness :
  valid_input (4, 4) (2, 2) [0; 1; 2; 7] =
  valid_input (4, 4) (2, 2) [7; 7; 2; 1; 0; 0].
Proof.
  apply valid_input_value_set. intros v.
  rewrite !elem_of_cons, !elem_of_nil. tauto.
Defined.

(** C2 (evaluation at the failing inputs): on a 4x4 image with 2x2 tiles
    (four tiles expected) the validator accepts an ordering with the
    out-of-range index 7, and one of length five, because only the number
    of distinct values is compared with the tile count.  The first of them
    then makes [rearrange_tiles] fail on the subscript [tiles[7]]. *)
Theorem valid_input_accepts_non_permutation :
  valid_input (4, 4) (2, 2) [0; 1; 2; 7] = Return true ∧
  valid_input (4, 4) (2, 2) [0; 1; 2; 3; 3] = Return true ∧
  (rearrange_tiles "in44.png" (2, 2) [0; 1; 2; 7] "out.png" world0).1 =
    Raise (IndexError "list index out of range").
Proof. split_and!; by vm_compute. Qed.

(** ** The raster operations *)

Lemma px_lookup rows x y row p :
  0 ≤ x → 0 ≤ y →
  rows !! Z.to_nat y = Some row → row !! Z.to_nat x = Some p →
  px rows x y = p.
Proof.
  intros Hx Hy Hr Hp. unfold px. rewrite decide_True by done.
  rewrite Hr. simpl. by rewrite Hp.
Qed.

Lemma wf_rows_lookup W H rows x y :
  wf_rows (W, H) rows → 0 ≤ x < W → 0 ≤ y < H →
  ∃ row, rows !! Z.to_nat y = Some row ∧ row !! Z.to_nat x = Some (px rows x y).
Proof.
  intros (HW & HH & Hlen & Hall) Hx Hy. cbn in *.
  destruct (lookup_lt_is_Some_2 rows (Z.to_nat y)) as [row Hrow]; [lia|].
  assert (length row = Z.to_nat W) as Hrl.
  { by eapply (proj1 (Forall_lookup _ _) Hall). }
  destruct (lookup_lt_is_Some_2 row (Z.to_nat x)) as [p Hp]; [lia|].
  exists row. split; [done|]. rewrite Hp. f_equal. symmetry.
  eapply px_lookup; eauto; lia.
Qed.

(** Two well-formed buffers of one size that agree at every coordinate
    are the same buffer. *)
Lemma wf_rows_ext W H rows1 rows2 :
  wf_rows (W, H) rows1 → wf_rows (W, H) rows2 →
  (∀ x y, 0 ≤ x < W → 0 ≤ y < H → px rows1 x y = px rows2 x y) →
  rows1 = rows2.
Proof.
  intros Hwf1 Hwf2 Hpx. apply list_eq. intros j.
  destruct (decide (Z.of_nat j < H)) as [Hj|Hj].
  - destruct (decide (0 < W)) as [HW|HW].
    + destruct (wf_rows_lookup W H rows1 0 (Z.of_nat j) Hwf1) as (r1 & Hr1 & _); [lia..|].
      destruct (wf_rows_lookup W H rows2 0 (Z.of_nat j) Hwf2) as (r2 & Hr2 & _); [lia..|].
      rewrite Nat2Z.id in Hr1, Hr2. rewrite Hr1, Hr2. f_equal.
      apply list_eq. intros i.
      destruct (decide (Z.of_nat i < W)) as [Hi|Hi].
      * destruct (wf_rows_lookup W H rows1 (Z.of_nat i) (Z.of_nat j) Hwf1)
          as (r1' & Hr1' & Hp1); [lia..|].
        destruct (wf_rows_lookup W H rows2 (Z.of_nat i) (Z.of_nat j) Hwf2)
          as (r2' & Hr2' & Hp2); [lia..|].
        rewrite Nat2Z.id in *. simplify_eq.
        rewrite Hp1, Hp2. f_equal. apply Hpx; lia.
      * destruct Hwf1 as (_ & _ & _ & Hall1), Hwf2 as (_ & _ & _ & Hall2).
        pose proof (proj1 (Forall_lookup _ _) Hall1 _ _ Hr1) as Hl1.
        pose proof (proj1 (Forall_lookup _ _) Hall2 _ _ Hr2) as Hl2.
        cbn in *. rewrite !lookup_ge_None_2; [done|lia..].
    + destruct Hwf1 as (HW1 & _ & Hlen1 & Hall1), Hwf2 as (_ & _ & Hlen2 & Hall2).
      cbn in *.
      destruct (lookup_lt_is_Some_2 rows1 j) as [r1 Hr1]; [lia|].
      destruct (lookup_lt_is_Some_2 rows2 j) as [r2 Hr2]; [lia|].
      pose proof (proj1 (Forall_lookup _ _) Hall1 _ _ Hr1) as Hl1.
      pose proof (proj1 (Forall_lookup _ _) Hall2 _ _ Hr2) as Hl2.
      cbn in *. rewrite Hr1, Hr2. f_equal.
      destruct r1, r2; cbn in *; done || lia.
  - destruct Hwf1 as (_ & _ & Hlen1 & _), Hwf2 as (_ & _ & Hlen2 & _).
    cbn in *. rewrite !lookup_ge_None_2; [done|lia..].
Qed.

Lemma new_image_spec mode W H :
  0 ≤ W → 0 ≤ H →
  ∃ im, new_image mode (W, H) = Return im ∧
        im_mode im = mode ∧ im_size im = (W, H) ∧ im_format im = None ∧
        wf_image im.
Proof.
  intros HW HH. unfold new_image. rewrite decide_False by lia.
  eexists. split; [done|]. repeat split; cbn; try done.
  - by rewrite length_replicate.
  - apply Forall_replicate. by rewrite length_replicate.
Qed.

Lemma crop_spec im x0 y0 x1 y1 :
  x0 ≤ x1 → y0 ≤ y1 →
  ∃ tile, crop im (x0, y0, x1, y1) = Return tile ∧
          im_mode tile = im_mode im ∧
          im_size tile = (x1 - x0, y1 - y0) ∧
          im_format tile = None ∧
          wf_image tile ∧
          ∀ dx dy, 0 ≤ dx < x1 - x0 → 0 ≤ dy < y1 - y0 →
                   px (im_data tile) dx dy = px (im_data im) (x0 + dx) (y0 + dy).
Proof.
  intros Hx Hy. unfold crop. rewrite !decide_False by lia.
  eexists. split; [done|]. unfold wf_image, wf_rows. cbn. repeat split; try lia.
  - by rewrite length_fmap, length_seqZ.
  - apply Forall_fmap, Forall_forall. intros y _. cbn.
    by rewrite length_fmap, length_seqZ.
  - intros dx dy Hdx Hdy. apply (px_lookup _ _ _
      ((λ x, px (im_data im) x (y0 + dy)) <$> seqZ x0 (x1 - x0))); [lia..| |].
    + rewrite list_lookup_fmap, lookup_seqZ_lt by lia. cbn.
      by rewrite Z2Nat.id by lia.
    + rewrite list_lookup_fmap, lookup_seqZ_lt by lia. cbn.
      by rewrite Z2Nat.id by lia.
Qed.

Lemma paste_spec dst im b W H :
  im_size dst = (W, H) → wf_image dst → im_size im = box_size b →
  ∃ dst', paste dst im b = Return dst' ∧
          im_mode dst' = im_mode dst ∧
          im_size dst' = (W, H) ∧
          im_format dst' = im_format dst ∧
          wf_image dst' ∧
          ∀ x y, 0 ≤ x < W → 0 ≤ y < H →
                 px (im_data dst') x y =
                   if decide (in_box b x y)
                   then px (im_data im) (x - (box_origin b).1) (y - (box_origin b).2)
                   else px (im_data dst) x y.
Proof.
  destruct b as [[[x0 y0] x1] y1]. intros Hsz Hwf Him. cbn in Him.
  unfold paste. rewrite decide_True by done.
  eexists. split; [done|]. cbn. split; [done|]. split; [done|]. split; [done|].
  unfold wf_image in *. rewrite Hsz in *. split.
  - destruct Hwf as (? & ? & Hlen & Hall). cbn in *. repeat split; try done.
    + by rewrite length_imap.
    + apply Forall_lookup. intros j row Hrow.
      apply list_lookup_imap_Some in Hrow as (row' & Hrow' & ->).
      rewrite length_imap.
      by eapply (proj1 (Forall_lookup _ _) Hall).
  - intros x y Hx Hy.
    destruct (wf_rows_lookup W H _ x y Hwf) as (row & Hrow & Hp); [lia..|].
    eapply px_lookup; [lia..| |].
    + rewrite list_lookup_imap, Hrow. done.
    + rewrite list_lookup_imap, Hp. cbn. rewrite !Z2Nat.id by lia. done.
Qed.

(** ** The tile enumeration *)

Lemma list_bind_length_same {A B} (f : A → list B) (n : nat) (l : list A) :
  (∀ a, length (f a) = n) → length (l ≫= f) = (length l * n)%nat.
Proof.
  intros Hf. induction l as [|a l IH]; [done|].
  rewrite bind_cons, length_app, IH, Hf. cbn. lia.
Qed.

Lemma list_bind_lookup_same {A B} (f : A → list B) (n : nat) (l : list A)
    (j i : nat) :
  (∀ a, length (f a) = n) → (i < n)%nat →
  (l ≫= f) !! (j * n + i)%nat = l !! j ≫= λ a, f a !! i.
Proof.
  intros Hf Hi. revert j. induction l as [|a l IH]; intros j; [done|].
  rewrite bind_cons. destruct j as [|j].
  - cbn. by rewrite lookup_app_l by (rewrite Hf; lia).
  - rewrite lookup_app_r by (rewrite Hf; lia). rewrite Hf.
    replace (S j * n + i - n)%nat with (j * n + i)%nat by lia.
    by rewrite IH.
Qed.

Lemma py_getitem_lookup {A} (l : list A) (i : Z) (a : A) :
  0 ≤ i → l !! Z.to_nat i = Some a → py_getitem l i = Return a.
Proof.
  intros Hi Hl. unfold py_getitem.
  rewrite (decide_False (P := i < 0)) by lia.
  rewrite decide_True by done. by rewrite Hl.
Qed.

Lemma tile_boxes_length W H w h :
  length (tile_boxes (W, H) (w, h)) =
    (Z.to_nat (H `div` h) * Z.to_nat (W `div` w))%nat.
Proof.
  unfold tile_boxes.
  rewrite (list_bind_length_same _ (Z.to_nat (W `div` w))).
  - by rewrite length_seqZ.
  - intros y. rewrite (list_bind_length_same _ 1%nat) by done.
    rewrite length_seqZ. lia.
Qed.

Lemma tile_boxes_lookup W H w h (r c : Z) :
  0 ≤ r < H `div` h → 0 ≤ c < W `div` w →
  tile_boxes (W, H) (w, h) !! Z.to_nat (r * (W `div` w) + c) =
    Some (c * w, r * h, (c + 1) * w, (r + 1) * h).
Proof.
  intros Hr Hc. unfold tile_boxes.
  replace (Z.to_nat (r * (W `div` w) + c))
    with (Z.to_nat r * Z.to_nat (W `div` w) + Z.to_nat c)%nat by lia.
  rewrite (list_bind_lookup_same _ (Z.to_nat (W `div` w))); [|  |lia].
  - rewrite lookup_seqZ_lt by lia. cbn.
    replace (Z.to_nat c) with (Z.to_nat c * 1 + 0)%nat by lia.
    rewrite (list_bind_lookup_same _ 1%nat); [|done|lia].
    rewrite lookup_seqZ_lt by lia. cbn.
    by rewrite !Z2Nat.id by lia.
  - intros y. rewrite (list_bind_length_same _ 1%nat) by done.
    rewrite length_seqZ. lia.
Qed.

(** The tile list is the raster scan of the grid, columns varying
    fastest, and a subscript with that flat index reads that box. *)
Lemma tile_boxes_row_major W H w h (r c : Z) :
  0 ≤ r < H `div` h → 0 ≤ c < W `div` w →
  let tiles := tile_boxes (W, H) (w, h) in
  let i := r * (W `div` w) + c in
  Z.of_nat (length tiles) = (H `div` h) * (W `div` w) ∧
  tiles !! Z.to_nat i = Some (c * w, r * h, (c + 1) * w, (r + 1) * h) ∧
  py_getitem tiles i = Return (c * w, r * h, (c + 1) * w, (r + 1) * h).
Proof.
  intros Hr Hc tiles i. subst tiles i.
  pose proof (tile_boxes_lookup W H w h r c Hr Hc) as Hl.
  split; [rewrite tile_boxes_length; lia|]. split; [done|].
  apply py_getitem_lookup; [nia|done].
Qed.

(** ** Stepping through computations *)

Lemma Py_bind_Return {A B} (m : Py A) (k : A → Py B) σ a σ' :
  m σ = (Return a, σ') → (m ≫= k) σ = k a σ'.
Proof. intros Hm. unfold mbind, Py_bind. by rewrite Hm. Qed.

Lemma Py_bind_Raise {A B} (m : Py A) (k : A → Py B) σ e σ' :
  m σ = (Raise e, σ') → (m ≫= k) σ = (Raise e, σ').
Proof. intros Hm. unfold mbind, Py_bind. by rewrite Hm. Qed.

Lemma Image_crop_Return im b tile σ :
  crop im b = Return tile →
  Image_crop im b σ = (Return tile, World (files σ) (calls σ ++ [EvCrop b])).
Proof. intros Hc. unfold Image_crop, lift, mbind, Py_bind. by rewrite Hc. Qed.

Lemma Image_paste_Return dst im b dst' σ :
  paste dst im b = Return dst' →
  Image_paste dst im b σ =
    (Return dst', World (files σ) (calls σ ++ [EvPaste b])).
Proof. intros Hc. unfold Image_paste, lift, mbind, Py_bind. by rewrite Hc. Qed.

Lemma Image_new_Return mode size im σ :
  new_image mode size = Return im →
  Image_new mode size σ =
    (Return im, World (files σ) (calls σ ++ [EvNew mode size])).
Proof. intros Hc. unfold Image_new, lift, mbind, Py_bind. by rewrite Hc. Qed.

(** ** The paste loop on a grid of disjoint boxes *)

Lemma boxes_disjoint_tail b boxes :
  boxes_disjoint (b :: boxes) →
  boxes_disjoint boxes ∧
  ∀ b' x y, b' ∈ boxes → in_box b x y → ¬ in_box b' x y.
Proof.
  intros Hd. split.
  - intros i j bi bj x y Hi Hj Hbi Hbj.
    assert (S i = S j) as Hij by (eapply (Hd (S i) (S j)); eauto). lia.
  - intros b' x y Hin Hb Hb'.
    apply list_elem_of_lookup in Hin as [j Hj].
    assert (0%nat = S j) by (eapply (Hd 0%nat (S j)); eauto). lia.
Qed.

Lemma paste_loop_spec src ts w h W H :
  0 ≤ w → 0 ≤ h →
  Forall (λ b, box_size b = (w, h)) ts →
  ∀ ordering boxes out σ,
    Forall (λ i, 0 ≤ i < Z.of_nat (length ts)) ordering →
    length ordering = length boxes →
    Forall (λ b, box_size b = (w, h)) boxes →
    boxes_disjoint boxes →
    im_size out = (W, H) → wf_image out →
    ∃ out' σ',
      paste_loop src ts ordering boxes out σ = (Return out', σ') ∧
      files σ' = files σ ∧
      im_mode out' = im_mode out ∧ im_size out' = (W, H) ∧
      im_format out' = im_format out ∧ wf_image out' ∧
      (∀ k o b bs x y,
         ordering !! k = Some o → boxes !! k = Some b →
         ts !! Z.to_nat o = Some bs →
         in_box b x y → 0 ≤ x < W → 0 ≤ y < H →
         px (im_data out') x y =
           px (im_data src) ((box_origin bs).1 + (x - (box_origin b).1))
                            ((box_origin bs).2 + (y - (box_origin b).2))) ∧
      (∀ x y, 0 ≤ x < W → 0 ≤ y < H →
         (∀ b, b ∈ boxes → ¬ in_box b x y) →
         px (im_data out') x y = px (im_data out) x y).
Proof.
  intros Hw Hh Hts. induction ordering as [|o ordering IH];
    intros boxes out σ Hord Hlen Hboxes Hdisj Hsz Hwf.
  { destruct boxes; [|done]. exists out, σ. split_and!; done. }
  destruct boxes as [|b boxes]; [done|].
  apply Forall_cons_1 in Hord as [Ho Hord].
  apply Forall_cons_1 in Hboxes as [Hb Hboxes].
  apply boxes_disjoint_tail in Hdisj as [Hdisj Hfirst].
  destruct (lookup_lt_is_Some_2 ts (Z.to_nat o)) as [bs Hbs]; [lia|].
  pose proof (proj1 (Forall_lookup _ _) Hts _ _ Hbs) as Hbsz.
  destruct bs as [[[sx0 sy0] sx1] sy1]. cbn in Hbsz.
  injection Hbsz as Hbw Hbh.
  destruct (crop_spec src sx0 sy0 sx1 sy1) as
    (tile & Hcrop & _ & Htsz & _ & _ & Htpx); [lia..|].
  destruct (paste_spec out tile b W H) as
    (out1 & Hpaste & Hm1 & Hsz1 & Hf1 & Hwf1 & Hpx1);
    [done|done|by rewrite Htsz, Hb, Hbw, Hbh|].
  set (σ1 := World (files σ) (calls σ ++ [EvCrop (sx0, sy0, sx1, sy1)])).
  set (σ2 := World (files σ1) (calls σ1 ++ [EvPaste b])).
  set (σ3 := World (files σ2) (calls σ2 ++ [EvClose TileImage])).
  destruct (IH boxes out1 σ3) as
    (out' & σ' & Hrun & Hfiles & Hm' & Hsz' & Hf' & Hwf' & Hin & Hout);
    [done|by simplify_eq/=|done..|].
  exists out', σ'. split.
  { cbn [paste_loop].
    erewrite Py_bind_Return; [|unfold lift; by erewrite py_getitem_lookup by (done || lia)].
    erewrite Py_bind_Return; [|by apply Image_crop_Return].
    erewrite Py_bind_Return; [|by apply Image_paste_Return].
    erewrite Py_bind_Return; [|reflexivity]. exact Hrun. }
  split; [done|]. split; [congruence|]. split; [done|].
  split; [congruence|]. split; [done|]. split.
  - intros k o' b' bs' x y Hk Hk' Hbs' Hbox Hx Hy. destruct k as [|k].
    + cbn in Hk, Hk'. injection Hk as <-. injection Hk' as <-.
      rewrite Hbs in Hbs'. injection Hbs' as <-.
      rewrite Hout; [|done..|by eauto].
      rewrite Hpx1, decide_True by done. cbn.
      destruct b as [[[x0 y0] x1] y1]. cbn in Hb, Hbox |- *.
      injection Hb as Hbw' Hbh'. apply Htpx; lia.
    + cbn in Hk, Hk'. by eapply Hin.
  - intros x y Hx Hy Hno. rewrite Hout; [|done..|].
    + rewrite Hpx1, decide_False; [done| |done..].
      apply Hno. by left.
    + intros b' Hb'. apply Hno. by right.
Qed.

Lemma with_closing_eq {A} h (m : Py A) σ r σ' :
  m σ = (r, σ') →
  with_closing h m σ = (r, World (files σ') (calls σ' ++ [EvClose h])).
Proof. intros Hm. unfold with_closing. by rewrite Hm. Qed.

Lemma with_closing_inv {A} h (m : Py A) σ r σ' :
  with_closing h m σ = (r, σ') →
  ∃ σ1, m σ = (r, σ1) ∧ σ' = World (files σ1) (calls σ1 ++ [EvClose h]).
Proof.
  unfold with_closing. destruct (m σ) as [r1 σ1]. intros [= <- <-]. by exists σ1.
Qed.

Lemma Py_bind_inv {A B} (m : Py A) (k : A → Py B) σ r σ' :
  (m ≫= k) σ = (r, σ') →
  (∃ a σ1, m σ = (Return a, σ1) ∧ k a σ1 = (r, σ')) ∨
  (∃ e, m σ = (Raise e, σ') ∧ r = Raise e).
Proof.
  unfold mbind, Py_bind. destruct (m σ) as [[a|e] σ1].
  - intros Hk. left. by exists a, σ1.
  - intros [= <- <-]. right. by exists e.
Qed.

(** ** The grid of a tile size that divides the image *)

Section grid.
Variables W H w h : Z.
Hypothesis w_pos : 0 < w.
Hypothesis h_pos : 0 < h.
Hypothesis W_nonneg : 0 ≤ W.
Hypothesis H_nonneg : 0 ≤ H.
Hypothesis w_divides : W `mod` w = 0.
Hypothesis h_divides : H `mod` h = 0.

Let cols := W `div` w.
Let rows := H `div` h.
Let tiles := tile_boxes (W, H) (w, h).

Lemma grid_width : W = cols * w.
Proof. subst cols. pose proof (Z.div_mod W w). lia. Qed.

Lemma grid_height : H = rows * h.
Proof. subst rows. pose proof (Z.div_mod H h). lia. Qed.

Lemma grid_cols_nonneg : 0 ≤ cols.
Proof. subst cols. apply Z.div_pos; lia. Qed.

Lemma grid_rows_nonneg : 0 ≤ rows.
Proof. subst rows. apply Z.div_pos; lia. Qed.

Lemma grid_length : Z.of_nat (length tiles) = cols * rows.
Proof.
  subst tiles. rewrite tile_boxes_length.
  pose proof grid_cols_nonneg. pose proof grid_rows_nonneg.
  subst cols rows. lia.
Qed.

Lemma grid_lookup_inv k b :
  tiles !! k = Some b →
  ∃ r c, 0 ≤ r < rows ∧ 0 ≤ c < cols ∧ Z.of_nat k = r * cols + c ∧
         b = (c * w, r * h, (c + 1) * w, (r + 1) * h).
Proof.
  intros Hk. pose proof (lookup_lt_Some _ _ _ Hk) as Hlt.
  pose proof grid_length as Hlen.
  pose proof grid_cols_nonneg as Hc. pose proof grid_rows_nonneg as Hr.
  assert (0 < cols) as Hcpos by nia.
  exists (Z.of_nat k `div` cols), (Z.of_nat k `mod` cols).
  pose proof (Z.div_mod (Z.of_nat k) cols) as Hdm.
  pose proof (Z.mod_pos_bound (Z.of_nat k) cols Hcpos) as Hm.
  assert (0 ≤ Z.of_nat k `div` cols < rows) as Hd.
  { split; [apply Z.div_pos; lia|]. apply Z.div_lt_upper_bound; lia. }
  split; [done|]. split; [done|]. split; [lia|].
  pose proof (tile_boxes_lookup W H w h _ _ Hd Hm) as Hl.
  fold cols tiles in Hl.
  replace (Z.to_nat (Z.of_nat k `div` cols * cols + Z.of_nat k `mod` cols))
    with k in Hl by lia.
  congruence.
Qed.

Lemma grid_box_size : Forall (λ b, box_size b = (w, h)) tiles.
Proof.
  apply Forall_lookup. intros k b Hk.
  apply grid_lookup_inv in Hk as (r & c & _ & _ & _ & ->).
  cbn. f_equal; lia.
Qed.

Lemma grid_disjoint : boxes_disjoint tiles.
Proof.
  intros i j bi bj x y Hi Hj Hbi Hbj.
  apply grid_lookup_inv in Hi as (r & c & Hr & Hc & Hi & ->).
  apply grid_lookup_inv in Hj as (r' & c' & Hr' & Hc' & Hj & ->).
  cbn in Hbi, Hbj.
  assert (c = c') by nia. assert (r = r') by nia. subst. lia.
Qed.

Lemma grid_inside k b x y :
  tiles !! k = Some b → in_box b x y → 0 ≤ x < W ∧ 0 ≤ y < H.
Proof.
  intros Hk Hb.
  apply grid_lookup_inv in Hk as (r & c & Hr & Hc & Hi & ->).
  cbn in Hb. pose proof grid_width. pose proof grid_height. nia.
Qed.

Lemma grid_cover x y :
  0 ≤ x < W → 0 ≤ y < H →
  ∃ k b, tiles !! k = Some b ∧ in_box b x y.
Proof.
  intros Hx Hy. pose proof grid_width as HW. pose proof grid_height as HH.
  assert (0 ≤ x `div` w < cols) as Hc.
  { split; [apply Z.div_pos; lia|]. apply Z.div_lt_upper_bound; lia. }
  assert (0 ≤ y `div` h < rows) as Hr.
  { split; [apply Z.div_pos; lia|]. apply Z.div_lt_upper_bound; lia. }
  eexists _, _. split; [by apply (tile_boxes_lookup W H w h _ _ Hr Hc)|].
  cbn. pose proof (Z.div_mod x w). pose proof (Z.div_mod y h).
  pose proof (Z.mod_pos_bound x w). pose proof (Z.mod_pos_bound y h). lia.
Qed.
End grid.

(** ** A run on a valid arrangement *)

Lemma len_set_NoDup (ordering : list Z) :
  NoDup ordering → len_set ordering = Z.of_nat (length ordering).
Proof. intros Hnd. unfold len_set. by rewrite size_list_to_set. Qed.

Section run.
Variables W H w h : Z.
Hypothesis w_pos : 0 < w.
Hypothesis h_pos : 0 < h.
Hypothesis w_divides : W `mod` w = 0.
Hypothesis h_divides : H `mod` h = 0.
Variable f : file.
Hypothesis f_size : file_size f = (W, H).
Hypothesis f_wf : wf_file f.

Let tiles := tile_boxes (W, H) (w, h).

Lemma rearrange_tiles_run σ image_path out_path (ordering : list Z) :
  files σ !! image_path = Some f →
  length ordering = length tiles →
  Forall (λ i, 0 ≤ i < Z.of_nat (length tiles)) ordering →
  NoDup ordering →
  ∃ data evs,
    rearrange_tiles image_path (w, h) ordering out_path σ =
      (Return (),
       World (<[out_path := File (file_format f) (file_mode f) (W, H) data]>
                (files σ)) evs) ∧
    wf_rows (W, H) data ∧
    ∀ k o b bs x y,
      ordering !! k = Some o → tiles !! k = Some b →
      tiles !! Z.to_nat o = Some bs → in_box b x y →
      px data x y =
        px (file_data f) ((box_origin bs).1 + (x - (box_origin b).1))
                         ((box_origin bs).2 + (y - (box_origin b).2)).
Proof.
  intros Hfile Hlen Hrange Hnd.
  assert (0 ≤ W ∧ 0 ≤ H) as [HW HH].
  { destruct f_wf as (? & ? & _). rewrite f_size in *. done. }
  destruct (new_image_spec (file_mode f) W H HW HH)
    as (canvas & Hnew & Hcm & Hcs & Hcf & Hcwf).
  set (σ0 := World (files σ) (calls σ ++ [EvOpen image_path])).
  set (σ1 := World (files σ0) (calls σ0 ++ [EvNew (file_mode f) (W, H)])).
  assert (Forall (λ b, box_size b = (w, h)) tiles) as Hts
    by (by apply grid_box_size).
  destruct (paste_loop_spec (decode f) tiles w h W H
              ltac:(lia) ltac:(lia) Hts ordering tiles canvas σ1)
    as (out & σ2 & Hloop & Hfiles & Hom & Hos & Hof & Howf & Hpx & _);
    [done|done|done|by apply grid_disjoint|done|done|].
  set (σ3 := World (<[out_path := encode (file_format f) out]> (files σ2))
                   (calls σ2 ++ [EvSave out_path (file_format f)])).
  set (σ4 := World (files σ3) (calls σ3 ++ [EvClose CanvasImage])).
  exists (im_data out), (calls σ4 ++ [EvClose SourceImage]).
  split; [|split].
  - unfold rearrange_tiles.
    erewrite Py_bind_Return; [|unfold Image_open; by rewrite Hfile].
    erewrite (with_closing_eq _ _ _ (Return ()) σ4).
    { cbn. rewrite Hfiles. cbn. unfold encode. by rewrite Hom, Hos, Hcm. }
    fold σ0. cbn [decode im_size im_mode im_format]. rewrite f_size.
    erewrite Py_bind_Return;
      [|unfold lift; rewrite valid_input_nonzero by lia; reflexivity].
    rewrite bool_decide_eq_true_2; cycle 1.
    { split; [done|]. split; [done|]. rewrite len_set_NoDup, Hlen by done.
      subst tiles. rewrite (grid_length W H w h) by done. lia. }
    cbn [negb].
    erewrite Py_bind_Return; [|by apply Image_new_Return].
    apply with_closing_eq. fold σ1 tiles.
    erewrite Py_bind_Return; [|exact Hloop]. done.
  - unfold wf_image in Howf. by rewrite Hos in Howf.
  - intros k o b bs x y Hk Hb Hbs Hbox.
    assert (0 ≤ x < W ∧ 0 ≤ y < H) as [Hx Hy]
      by (eapply (grid_inside W H w h); [..|exact Hb|exact Hbox]; done).
    by eapply Hpx.
Qed.
End run.

(** ** Valid arrangements *)

Lemma arrangement_facts (n : Z) (ordering : list Z) :
  ordering ≡ₚ seqZ 0 n →
  length ordering = Z.to_nat n ∧
  Forall (λ i, 0 ≤ i < n) ordering ∧
  NoDup ordering.
Proof.
  intros Hp. split_and!.
  - by rewrite Hp, length_seqZ.
  - rewrite Hp. apply Forall_seqZ. intros i Hi. lia.
  - rewrite Hp. apply NoDup_seqZ.
Qed.

(** Two crops agree when the boxes have one size and the images agree
    pixel by pixel across the boxes. *)
Lemma crop_ext (im1 im2 : image) (b1 b2 : Z * Z * Z * Z) :
  im_mode im1 = im_mode im2 →
  box_size b1 = box_size b2 →
  (∀ dx dy, 0 ≤ dx < (box_size b1).1 → 0 ≤ dy < (box_size b1).2 →
     px (im_data im1) ((box_origin b1).1 + dx) ((box_origin b1).2 + dy) =
     px (im_data im2) ((box_origin b2).1 + dx) ((box_origin b2).2 + dy)) →
  crop im1 b1 = crop im2 b2.
Proof.
  destruct b1 as [[[x0 y0] x1] y1], b2 as [[[x0' y0'] x1'] y1'].
  cbn. intros Hm [= Hw Hh] Hpx. unfold crop.
  destruct (decide (x1 < x0)), (decide (x1' < x0')); try lia; [done|].
  destruct (decide (y1 < y0)), (decide (y1' < y0')); try lia; [done|].
  rewrite Hm, Hw, Hh. do 2 f_equal.
  rewrite <-(Z.add_0_r y0), <-(Z.add_0_r y0'), <-!(fmap_add_seqZ _ 0).
  rewrite <-!list_fmap_compose. apply Forall_fmap_ext, Forall_seqZ.
  intros dy Hdy. cbn.
  rewrite <-(Z.add_0_r x0), <-(Z.add_0_r x0'), <-!(fmap_add_seqZ _ 0).
  rewrite <-!list_fmap_compose. apply Forall_fmap_ext, Forall_seqZ.
  intros dx Hdx. cbn.
  apply Hpx; lia.
Qed.

(** ** Tile content *)



(** ** Identity and round trip *)

Lemma file_ext f W H data :
  file_size f = (W, H) → wf_file f → wf_rows (W, H) data →
  (∀ x y, 0 ≤ x < W → 0 ≤ y < H → px data x y = px (file_data f) x y) →
  File (file_format f) (file_mode f) (W, H) data = f.
Proof.
  intros Hsz Hwf Hdwf Hpx. unfold wf_file in Hwf. rewrite Hsz in Hwf.
  destruct f as [fmt mode sz fdata]. cbn in *. subst sz. f_equal.
  by apply (wf_rows_ext W H).
Qed.

(** C6: with the identity ordering [0, 1, ..., N-1] the run succeeds and
    the file written at [out_path] is the source file itself: the same
    format, mode and size, and the same pixel buffer. *)
Theorem rearrange_tiles_identity σ image_path out_path f W H w h :
  files σ !! image_path = Some f →
  file_size f = (W, H) → wf_file f →
  0 < w → 0 < h → W `mod` w = 0 → H `mod` h = 0 →
  ∃ σ',
    rearrange_tiles image_path (w, h)
      (seqZ 0 ((W `div` w) * (H `div` h))) out_path σ = (Return (), σ') ∧
    files σ' !! out_path = Some f.
Proof.
  intros Hfile Hsz Hwf Hw Hh Hdw Hdh.
  assert (0 ≤ W ∧ 0 ≤ H) as [HW HH].
  { destruct Hwf as (? & ? & _). rewrite Hsz in *. done. }
  pose proof (grid_length W H w h Hw Hh HW HH) as Hlen.
  set (ordering := seqZ 0 ((W `div` w) * (H `div` h))).
  destruct (arrangement_facts _ ordering (reflexivity _)) as (Hol & Hor & Hnd).
  destruct (rearrange_tiles_run W H w h Hw Hh Hdw Hdh f Hsz Hwf
              σ image_path out_path ordering) as (data & evs & Hrun & Hdwf & Hpx);
    [done|lia|by rewrite Hlen|done|].
  eexists. split; [exact Hrun|]. cbn. rewrite lookup_insert_eq. f_equal.
  apply file_ext; [done..|]. intros x y Hx Hy.
  assert (∃ k b, tile_boxes (W, H) (w, h) !! k = Some b ∧ in_box b x y)
    as (k & b & Hb & Hbox) by (by apply grid_cover).
  pose proof (lookup_lt_Some _ _ _ Hb) as Hk.
  rewrite (Hpx k (Z.of_nat k) b b x y); [f_equal; lia| |done| |done].
  - subst ordering. by rewrite lookup_seqZ_lt by lia.
  - by rewrite Nat2Z.id.
Qed.

Lemma rearrange_tiles_identity_witness :
  ∃ σ',
    rearrange_tiles "in44.png" (2, 2)
      (seqZ 0 ((4 `div` 2) * (4 `div` 2))) "out.png" world0 = (Return (), σ') ∧
    files σ' !! "out.png" = Some img44.
Proof.
  apply (rearrange_tiles_identity world0 "in44.png" "out.png" img44 4 4 2 2).
  - by vm_compute.
  - reflexivity.
  - unfold wf_file, wf_rows. cbn. split_and!; try lia. by repeat constructor.
  - lia.
  - lia.
  - reflexivity.
  - reflexivity.
Defined.

Lemma inverse_ordering_length (P : list Z) :
  length (inverse_ordering P) = length P.
Proof. unfold inverse_ordering. rewrite length_fmap, length_seqZ. lia. Qed.

Lemma inverse_ordering_lookup (P : list Z) (k : nat) (q : Z) :
  P ≡ₚ seqZ 0 (Z.of_nat (length P)) →
  inverse_ordering P !! k = Some q →
  0 ≤ q < Z.of_nat (length P) ∧ P !! Z.to_nat q = Some (Z.of_nat k).
Proof.
  intros Hperm Hq. unfold inverse_ordering in Hq.
  rewrite list_lookup_fmap in Hq.
  destruct (seqZ 0 (Z.of_nat (length P)) !! k) as [j|] eqn:Hj; [|done].
  apply lookup_seqZ in Hj as [-> Hk]. cbn in Hq. injection Hq as <-.
  rewrite Z.add_0_l.
  assert (Z.of_nat k ∈ P) as Hin.
  { rewrite Hperm. apply elem_of_seqZ. lia. }
  destruct (list_find_elem_of (λ v, v = Z.of_nat k) P _ Hin eq_refl)
    as [[i v] Hfind].
  rewrite Hfind. cbn.
  apply list_find_Some in Hfind as (Hi & -> & _).
  pose proof (lookup_lt_Some _ _ _ Hi). rewrite Nat2Z.id. split; [lia|done].
Qed.

Lemma inverse_ordering_NoDup (P : list Z) :
  P ≡ₚ seqZ 0 (Z.of_nat (length P)) → NoDup (inverse_ordering P).
Proof.
  intros Hperm. apply NoDup_alt. intros i j q Hi Hj.
  apply inverse_ordering_lookup in Hi as [_ Hi]; [|done].
  apply inverse_ordering_lookup in Hj as [_ Hj]; [|done].
  rewrite Hi in Hj. injection Hj as Hij. lia.
Qed.

(** C7: for a permutation [P] of the tile indices, rearranging by [P]
    and then rearranging the result by the inverse permutation succeeds
    twice and leaves at [out_path] the source file itself. *)
Theorem rearrange_tiles_round_trip σ image_path mid_path out_path f W H w h
    (P : list Z) :
  files σ !! image_path = Some f →
  file_size f = (W, H) → wf_file f →
  0 < w → 0 < h → W `mod` w = 0 → H `mod` h = 0 →
  P ≡ₚ seqZ 0 ((W `div` w) * (H `div` h)) →
  ∃ σ1 σ2,
    rearrange_tiles image_path (w, h) P mid_path σ = (Return (), σ1) ∧
    rearrange_tiles mid_path (w, h) (inverse_ordering P) out_path σ1 =
      (Return (), σ2) ∧
    files σ2 !! out_path = Some f.
Proof.
  intros Hfile Hsz Hwf Hw Hh Hdw Hdh Hperm.
  assert (0 ≤ W ∧ 0 ≤ H) as [HW HH].
  { destruct Hwf as (? & ? & _). rewrite Hsz in *. done. }
  set (tiles := tile_boxes (W, H) (w, h)).
  pose proof (grid_length W H w h Hw Hh HW HH) as Hlen. fold tiles in Hlen.
  destruct (arrangement_facts _ _ Hperm) as (Hol & Hor & Hnd).
  assert (P ≡ₚ seqZ 0 (Z.of_nat (length P))) as Hperm'.
  { rewrite Hol, Z2Nat.id by lia. done. }
  destruct (rearrange_tiles_run W H w h Hw Hh Hdw Hdh f Hsz Hwf
              σ image_path mid_path P) as (data1 & evs1 & Hrun1 & Hwf1 & Hpx1).
  { done. } { fold tiles. lia. } { fold tiles. by rewrite Hlen. } { done. }
  set (mid := File (file_format f) (file_mode f) (W, H) data1) in *.
  set (σ1 := World (<[mid_path := mid]> (files σ)) evs1) in *.
  destruct (rearrange_tiles_run W H w h Hw Hh Hdw Hdh mid eq_refl Hwf1
              σ1 mid_path out_path (inverse_ordering P))
    as (data2 & evs2 & Hrun2 & Hwf2 & Hpx2).
  { cbn. by rewrite lookup_insert_eq. }
  { fold tiles. rewrite inverse_ordering_length. lia. }
  { fold tiles. apply Forall_lookup. intros k q Hq.
    apply inverse_ordering_lookup in Hq as [Hq _]; [lia|done]. }
  { by apply inverse_ordering_NoDup. }
  fold tiles in Hpx1, Hpx2.
  eexists _, _. split; [exact Hrun1|]. split; [exact Hrun2|].
  cbn. rewrite lookup_insert_eq. f_equal.
  apply file_ext; [done..|]. intros x y Hx Hy.
  assert (∃ k b, tiles !! k = Some b ∧ in_box b x y)
    as (k & b & Hb & Hbox) by (by apply grid_cover).
  pose proof (lookup_lt_Some _ _ _ Hb) as Hk.
  destruct (lookup_lt_is_Some_2 (inverse_ordering P) k) as [q Hq].
  { rewrite inverse_ordering_length. lia. }
  pose proof Hq as Hq'.
  apply inverse_ordering_lookup in Hq' as [Hqr HPq]; [|done].
  destruct (lookup_lt_is_Some_2 tiles (Z.to_nat q)) as [bq Hbq]; [lia|].
  assert (Forall (λ b, box_size b = (w, h)) tiles) as Hts
    by (by apply grid_box_size).
  pose proof (proj1 (Forall_lookup _ _) Hts _ _ Hb) as Hbs.
  pose proof (proj1 (Forall_lookup _ _) Hts _ _ Hbq) as Hbqs.
  rewrite (Hpx2 k q b bq x y) by done. cbn [file_data mid].
  rewrite (Hpx1 (Z.to_nat q) (Z.of_nat k) bq b).
  - f_equal; lia.
  - done.
  - done.
  - by rewrite Nat2Z.id.
  - destruct b as [[[x0 y0] x1] y1], bq as [[[u0 v0] u1] v1].
    cbn in Hbs, Hbqs, Hbox |- *.
    injection Hbs as ??. injection Hbqs as ??. lia.
Qed.

Lemma rearrange_tiles_round_trip_witness :
  ∃ σ1 σ2,
    rearrange_tiles "in44.png" (2, 2) [1; 2; 3; 0] "mid.png" world0 =
      (Return (), σ1) ∧
    rearrange_tiles "mid.png" (2, 2) (inverse_ordering [1; 2; 3; 0])
      "out.png" σ1 = (Return (), σ2) ∧
    files σ2 !! "out.png" = Some img44.
Proof.
  apply (rearrange_tiles_round_trip world0 "in44.png" "mid.png" "out.png"
           img44 4 4 2 2 [1; 2; 3; 0]).
  - by vm_compute.
  - reflexivity.
  - unfold wf_file, wf_rows. cbn. split_and!; try lia. by repeat constructor.
  - lia.
  - lia.
  - reflexivity.
  - reflexivity.
  - apply (bool_decide_unpack _). by vm_compute.
Defined.

(** ** Every run: what is raised and what is written *)

Lemma valid_input_Raise image_size tile_size (ordering : list Z) e :
  valid_input image_size tile_size ordering = Raise e →
  exc_class e = "ZeroDivisionError"%string.
Proof.
  destruct image_size as [W H], tile_size as [w h].
  unfold valid_input, py_mod, py_floordiv.
  destruct (decide (w = 0)); [by intros [= <-]|].
  destruct (decide (h = 0)); [by intros [= <-]|].
  cbn. by repeat case_match.
Qed.

Lemma py_getitem_Raise {A} (l : list A) i e :
  py_getitem l i = Raise e → exc_msg e ≠ invalid_message.
Proof. unfold py_getitem. repeat case_match; by intros [= <-]. Qed.

Lemma crop_Raise im b e : crop im b = Raise e → exc_msg e ≠ invalid_message.
Proof.
  destruct b as [[[x0 y0] x1] y1]. unfold crop.
  repeat case_match; by intros [= <-].
Qed.

Lemma paste_inv dst im b r :
  paste dst im b = r →
  match r with
  | Return dst' => im_mode dst' = im_mode dst ∧ im_size dst' = im_size dst
  | Raise e => exc_msg e ≠ invalid_message
  end.
Proof.
  destruct b as [[[x0 y0] x1] y1]. unfold paste.
  case_match; by intros <-.
Qed.

Lemma new_image_inv mode size r :
  new_image mode size = r →
  match r with
  | Return im => im_mode im = mode ∧ im_size im = size
  | Raise e => exc_msg e ≠ invalid_message
  end.
Proof. destruct size as [W H]. unfold new_image. case_match; by intros <-. Qed.

Lemma paste_loop_inv src ts ordering :
  ∀ boxes out σ r σ',
    paste_loop src ts ordering boxes out σ = (r, σ') →
    files σ' = files σ ∧
    match r with
    | Return out' => im_mode out' = im_mode out ∧ im_size out' = im_size out
    | Raise e => exc_msg e ≠ invalid_message
    end.
Proof.
  induction ordering as [|i ordering IH]; intros boxes out σ r σ' Hrun.
  { by injection Hrun as <- <-. }
  cbn [paste_loop] in Hrun.
  destruct (py_getitem ts i) as [b|e] eqn:Hget.
  2: { apply py_getitem_Raise in Hget.
       erewrite Py_bind_Raise in Hrun by reflexivity.
       by injection Hrun as <- <-. }
  erewrite Py_bind_Return in Hrun by reflexivity.
  destruct (crop src b) as [tile|e] eqn:Hcrop.
  2: { pose proof (crop_Raise _ _ _ Hcrop).
       erewrite Py_bind_Raise in Hrun
         by (unfold Image_crop, lift; by rewrite Hcrop).
       by injection Hrun as <- <-. }
  erewrite Py_bind_Return in Hrun by (by apply Image_crop_Return).
  destruct boxes as [|box boxes].
  { by injection Hrun as <- <-. }
  pose proof (paste_inv out tile box _ eq_refl) as Hp.
  destruct (paste out tile box) as [out1|e] eqn:Hpaste.
  2: { erewrite Py_bind_Raise in Hrun
         by (unfold Image_paste, lift; by rewrite Hpaste).
       by injection Hrun as <- <-. }
  erewrite Py_bind_Return in Hrun by (by apply Image_paste_Return).
  erewrite Py_bind_Return in Hrun by reflexivity.
  apply IH in Hrun as [Hfiles Hr]. split; [done|].
  destruct r; [|done]. destruct Hp, Hr. split; congruence.
Qed.

Section runs.
Variables (σ : world) (image_path out_path : string).
Variables (tile_size : Z * Z) (ordering : list Z).

Let run := rearrange_tiles image_path tile_size ordering out_path σ.
Let closed := World (files σ)
                    ((calls σ ++ [EvOpen image_path]) ++ [EvClose SourceImage]).

Lemma rearrange_tiles_missing :
  files σ !! image_path = None →
  run = (Raise (FileNotFoundError image_path), σ).
Proof.
  intros Hf. subst run. unfold rearrange_tiles.
  erewrite Py_bind_Raise; [done|]. unfold Image_open. by rewrite Hf.
Qed.

Lemma rearrange_tiles_validator_raises f e :
  files σ !! image_path = Some f →
  valid_input (file_size f) tile_size ordering = Raise e →
  run = (Raise e, closed).
Proof.
  intros Hf Hv. subst run closed. unfold rearrange_tiles.
  erewrite Py_bind_Return; [|unfold Image_open; by rewrite Hf].
  erewrite with_closing_eq; cycle 1.
  { apply Py_bind_Raise. unfold lift. cbn. by rewrite Hv. }
  done.
Qed.

Lemma rearrange_tiles_rejected f :
  files σ !! image_path = Some f →
  valid_input (file_size f) tile_size ordering = Return false →
  run = (Raise (ValueError invalid_message), closed).
Proof.
  intros Hf Hv. subst run closed. unfold rearrange_tiles.
  erewrite Py_bind_Return; [|unfold Image_open; by rewrite Hf].
  erewrite with_closing_eq; cycle 1.
  { erewrite Py_bind_Return; [|unfold lift; cbn; by rewrite Hv]. done. }
  done.
Qed.

Lemma rearrange_tiles_accepted f :
  files σ !! image_path = Some f →
  valid_input (file_size f) tile_size ordering = Return true →
  match run.1 with
  | Raise e => exc_msg e ≠ invalid_message
  | Return _ =>
      ∃ data,
        files run.2 =
          <[out_path := File (file_format f) (file_mode f) (file_size f) data]>
            (files σ)
  end.
Proof.
  intros Hf Hv. destruct run as [r σ'] eqn:Hrun. subst run. cbn [fst snd].
  unfold rearrange_tiles in Hrun.
  erewrite Py_bind_Return in Hrun by (unfold Image_open; by rewrite Hf).
  apply with_closing_inv in Hrun as (σ4 & Hrun & ->).
  erewrite Py_bind_Return in Hrun by (unfold lift; cbn; by rewrite Hv).
  cbn [negb decode im_mode im_size im_format] in Hrun.
  pose proof (new_image_inv (file_mode f) (file_size f) _ eq_refl) as Hn.
  destruct (new_image (file_mode f) (file_size f)) as [canvas|e] eqn:Hnew.
  2: { erewrite Py_bind_Raise in Hrun; [by injection Hrun as <- <-|].
       unfold Image_new, lift. erewrite Py_bind_Raise; [done|]. by rewrite Hnew. }
  erewrite Py_bind_Return in Hrun by (by apply Image_new_Return).
  apply with_closing_inv in Hrun as (σ3 & Hrun & ->).
  apply Py_bind_inv in Hrun as [(out & σ2 & Hloop & Hsave)|(e & Hloop & ->)].
  - apply paste_loop_inv in Hloop as [Hfiles [Hm Hs]].
    injection Hsave as <- <-. cbn. eexists. rewrite Hfiles. cbn.
    unfold encode. destruct Hn as [<- <-]. by rewrite Hm, Hs.
  - by apply paste_loop_inv in Hloop as [_ Hr].
Qed.
End runs.

(** ** The failure path and the written file *)

(** C3 (as the code has it): when the source image can be opened,
    [rearrange_tiles] raises [ValueError] with the message "The tile size
    or ordering are not valid for the given image" exactly when
    [valid_input] returns [False] on the decoded image's size, the tile
    size and the ordering; on that path the file system is unchanged and
    the only calls made are the opening and the closing of the source
    image: no canvas is created and nothing is saved. *)
Theorem rearrange_tiles_invalid_iff σ image_path out_path f tile_size
    (ordering : list Z) :
  files σ !! image_path = Some f →
  let run := rearrange_tiles image_path tile_size ordering out_path σ in
  (run.1 = Raise (Exception "ValueError"
                    "The tile size or ordering are not valid for the given image")
   ↔ valid_input (im_size (decode f)) tile_size ordering = Return false) ∧
  (valid_input (im_size (decode f)) tile_size ordering = Return false →
   files run.2 = files σ ∧
   calls run.2 = calls σ ++ [EvOpen image_path; EvClose SourceImage]).
Proof.
  intros Hf run. cbn [decode im_size]. split.
  - split.
    + intros Hrun.
      destruct (valid_input (file_size f) tile_size ordering) as [[]|e] eqn:Hv.
      * pose proof (rearrange_tiles_accepted σ image_path out_path
                      tile_size ordering f Hf Hv) as Hacc.
        fold run in Hacc. rewrite Hrun in Hacc. done.
      * done.
      * pose proof (rearrange_tiles_validator_raises σ image_path out_path
                      tile_size ordering f e Hf Hv) as Hr.
        fold run in Hr. rewrite Hr in Hrun. cbn in Hrun.
        apply valid_input_Raise in Hv. injection Hrun as ->. done.
    + intros Hv. subst run.
      by rewrite (rearrange_tiles_rejected σ image_path out_path
                    tile_size ordering f Hf Hv).
  - intros Hv. subst run.
    rewrite (rearrange_tiles_rejected σ image_path out_path
               tile_size ordering f Hf Hv).
    cbn. by rewrite <-app_assoc.
Qed.

(** The spec's scenario 8: four tiles expected, ordering [0, 1, 2, 2]. *)
Lemma rearrange_tiles_invalid_iff_witness :
  let run := rearrange_tiles "in44.png" (2, 2) [0; 1; 2; 2] "out.png" world0 in
  (run.1 = Raise (Exception "ValueError"
                    "The tile size or ordering are not valid for the given image")
   ↔ valid_input (im_size (decode img44)) (2, 2) [0; 1; 2; 2] = Return false) ∧
  (valid_input (im_size (decode img44)) (2, 2) [0; 1; 2; 2] = Return false →
   files run.2 = files world0 ∧
   calls run.2 = calls world0 ++ [EvOpen "in44.png"; EvClose SourceImage]).
Proof.
  apply (rearrange_tiles_invalid_iff world0 "in44.png" "out.png" img44).
  by vm_compute.
Defined.

(** C3 as stated fails on the exception class: on the rejected ordering
    [0, 1, 2, 2] the validator returns [False] and the exception raised is
    a [ValueError], not an [InvalidArrangementError]. *)
Lemma rearrange_tiles_not_InvalidArrangementError :
  ¬ ((rearrange_tiles "in44.png" (2, 2) [0; 1; 2; 2] "out.png" world0).1
       = Raise (Exception "InvalidArrangementError"
                  "The tile size or ordering are not valid for the given image")
     ↔ valid_input (im_size (decode img44)) (2, 2) [0; 1; 2; 2] = Return false).
Proof.
  intros [_ Hraise].
  assert (valid_input (im_size (decode img44)) (2, 2) [0; 1; 2; 2]
          = Return false) as Hv by (by vm_compute).
  specialize (Hraise Hv). vm_compute in Hraise. discriminate Hraise.
Qed.

(** C9: whenever [rearrange_tiles] returns normally, the source image was
    there to open and the file at [out_path] afterwards decodes to an
    image of the source's mode and size and is stored in the source's
    format. *)
Theorem rearrange_tiles_output_format σ image_path tile_size
    (ordering : list Z) out_path σ' :
  rearrange_tiles image_path tile_size ordering out_path σ = (Return (), σ') →
  ∃ src out,
    files σ !! image_path = Some src ∧
    files σ' !! out_path = Some out ∧
    im_mode (decode out) = im_mode (decode src) ∧
    im_size (decode out) = im_size (decode src) ∧
    file_format out = file_format src.
Proof.
  intros Hrun.
  destruct (files σ !! image_path) as [f|] eqn:Hf.
  2: { by rewrite rearrange_tiles_missing in Hrun. }
  destruct (valid_input (file_size f) tile_size ordering) as [[]|e] eqn:Hv.
  - pose proof (rearrange_tiles_accepted σ image_path out_path
                  tile_size ordering f Hf Hv) as Hacc.
    rewrite Hrun in Hacc. destruct Hacc as [data Hfiles]. cbn in Hfiles.
    eexists f, _. split; [done|]. rewrite Hfiles, lookup_insert_eq. done.
  - by rewrite (rearrange_tiles_rejected _ _ _ _ _ f) in Hrun.
  - by rewrite (rearrange_tiles_validator_raises _ _ _ _ _ f e) in Hrun.
Qed.

Lemma rearrange_tiles_output_format_witness :
  ∃ src out,
    files world0 !! "in44.png" = Some src ∧
    files (rearrange_tiles "in44.png" (2, 2) [2; 3; 0; 1] "out.png" world0).2
      !! "out.png" = Some out ∧
    im_mode (decode out) = im_mode (decode src) ∧
    im_size (decode out) = im_size (decode src) ∧
    file_format out = file_format src.
Proof.
  apply (rearrange_tiles_output_format world0 "in44.png" (2, 2) [2; 3; 0; 1]).
  by vm_compute.
Defined.

(** * Further properties of the validator *)

Lemma len_set_le_length (ordering : list Z) :
  len_set ordering ≤ Z.of_nat (length ordering).
Proof.
  rewrite (len_set_ext ordering (remove_dups ordering))
    by (intros v; by rewrite elem_of_remove_dups).
  rewrite len_set_NoDup by apply NoDup_remove_dups.
  apply inj_le, submseteq_length, NoDup_submseteq; [apply NoDup_remove_dups|].
  intros v. by rewrite elem_of_remove_dups.
Qed.

Lemma len_set_length_NoDup (ordering : list Z) :
  len_set ordering = Z.of_nat (length ordering) → NoDup ordering.
Proof.
  induction ordering as [|x l IH]; [constructor|]. intros Hlen.
  pose proof (len_set_le_length l) as Hle.
  unfold len_set in *. rewrite list_to_set_cons in Hlen.
  destruct (decide (x ∈ l)) as [Hin|Hnin].
  - rewrite subseteq_union_1_L in Hlen
      by (by apply singleton_subseteq_l, elem_of_list_to_set).
    cbn [length] in Hlen. lia.
  - rewrite size_union, size_singleton in Hlen
      by (by apply disjoint_singleton_l; rewrite elem_of_list_to_set).
    cbn [length] in Hlen. constructor; [done|]. apply IH. lia.
Qed.

(** X1: the validator raises exactly when a tile dimension is zero, and
    what it raises then is a [ZeroDivisionError]; the image size and the
    ordering play no part. *)
Theorem valid_input_raises_iff W H w h (ordering : list Z) :
  ((∃ e, valid_input (W, H) (w, h) ordering = Raise e) ↔ w = 0 ∨ h = 0) ∧
  (∀ e, valid_input (W, H) (w, h) ordering = Raise e →
        exc_class e = "ZeroDivisionError"%string).
Proof.
  split; [|intros e; apply valid_input_Raise]. split.
  - intros [e He].
    destruct (decide (w = 0)) as [|Hw]; [by left|].
    destruct (decide (h = 0)) as [|Hh]; [by right|].
    by rewrite valid_input_nonzero in He.
  - unfold valid_input, py_mod. intros [->| ->].
    + eexists. reflexivity.
    + destruct (decide (w = 0)); eexists; reflexivity.
Qed.

(** X2: the validator accepts every true permutation of the tile indices
    when the (positive) tile size divides the image dimensions. *)
Theorem valid_input_accepts_permutation W H w h (ordering : list Z) :
  0 ≤ W → 0 ≤ H → 0 < w → 0 < h →
  W `mod` w = 0 → H `mod` h = 0 →
  ordering ≡ₚ seqZ 0 ((W `div` w) * (H `div` h)) →
  valid_input (W, H) (w, h) ordering = Return true.
Proof.
  intros HW HH Hw Hh Hdw Hdh Hperm.
  rewrite valid_input_nonzero by lia.
  apply arrangement_facts in Hperm as (Hlen & _ & Hnd).
  rewrite bool_decide_eq_true_2; [done|]. split_and!; [done..|].
  rewrite len_set_NoDup, Hlen by done.
  pose proof (Z.div_pos W w HW Hw). pose proof (Z.div_pos H h HH Hh). nia.
Qed.

Lemma valid_input_accepts_permutation_witness :
  valid_input (4, 4) (2, 2) [3; 1; 0; 2] = Return true.
Proof.
  apply valid_input_accepts_permutation; try lia; try reflexivity.
  apply (bool_decide_unpack _). by vm_compute.
Defined.

(** X3: an ordering with fewer entries than the grid has tiles is always
    rejected (a set cannot have more members than the list it is built
    from); in particular the empty ordering is rejected as soon as there
    is a tile. *)
Theorem valid_input_rejects_short W H w h (ordering : list Z) :
  0 < w → 0 < h →
  Z.of_nat (length ordering) < (W `div` w) * (H `div` h) →
  valid_input (W, H) (w, h) ordering = Return false.
Proof.
  intros Hw Hh Hshort. rewrite valid_input_nonzero by lia.
  pose proof (len_set_le_length ordering).
  rewrite bool_decide_eq_false_2; [done|]. intros (_ & _ & Heq). lia.
Qed.

Lemma valid_input_rejects_short_witness :
  valid_input (4, 4) (2, 2) [0; 1; 2] = Return false ∧
  valid_input (4, 4) (2, 2) [] = Return false.
Proof.
  split; apply valid_input_rejects_short; by vm_compute.
Defined.

(** X4: on orderings of the right length whose entries all lie in
    [0, N) the validator is exact: it returns [True] only for
    permutations of the tile indices. *)
Theorem valid_input_exact_in_range W H w h (ordering : list Z) :
  0 < w → 0 < h →
  Z.of_nat (length ordering) = (W `div` w) * (H `div` h) →
  Forall (λ i, 0 ≤ i < (W `div` w) * (H `div` h)) ordering →
  valid_input (W, H) (w, h) ordering = Return true →
  ordering ≡ₚ seqZ 0 ((W `div` w) * (H `div` h)).
Proof.
  intros Hw Hh Hlen Hrange Hvalid.
  rewrite valid_input_nonzero in Hvalid by lia.
  injection Hvalid as Hvalid. apply bool_decide_eq_true_1 in Hvalid.
  destruct Hvalid as (_ & _ & Hset).
  assert (NoDup ordering) as Hnd by (apply len_set_length_NoDup; lia).
  apply submseteq_length_Permutation.
  - apply NoDup_submseteq; [done|]. intros i Hi.
    apply elem_of_seqZ. apply list_elem_of_lookup in Hi as [k Hk].
    pose proof (proj1 (Forall_lookup _ _) Hrange _ _ Hk) as Hr.
    cbn beta in Hr. lia.
  - rewrite length_seqZ. lia.
Qed.

Lemma valid_input_exact_in_range_witness :
  [2; 3; 0; 1] ≡ₚ seqZ 0 ((4 `div` 2) * (4 `div` 2)).
Proof.
  apply (valid_input_exact_in_range 4 4 2 2); try lia.
  - reflexivity.
  - cbn. repeat constructor; lia.
  - by vm_compute.
Defined.

(** * Further properties of rearrange_tiles *)

(** ** Every run, case by case *)

Lemma paste_loop_calls src ts ordering :
  ∀ boxes out σ r σ',
    paste_loop src ts ordering boxes out σ = (r, σ') →
    ∃ evs, calls σ' = calls σ ++ evs ∧ Forall tile_event evs.
Proof.
  induction ordering as [|i ordering IH]; intros boxes out σ r σ' Hrun.
  { injection Hrun as <- <-. exists []. by rewrite app_nil_r. }
  cbn [paste_loop] in Hrun.
  destruct (py_getitem ts i) as [b|e] eqn:Hget.
  2: { erewrite Py_bind_Raise in Hrun by reflexivity.
       injection Hrun as <- <-. exists []. by rewrite app_nil_r. }
  erewrite Py_bind_Return in Hrun by reflexivity.
  destruct (crop src b) as [tile|e] eqn:Hcrop.
  2: { erewrite Py_bind_Raise in Hrun
         by (unfold Image_crop, lift; by rewrite Hcrop).
       injection Hrun as <- <-. exists []. by rewrite app_nil_r. }
  erewrite Py_bind_Return in Hrun by (by apply Image_crop_Return).
  destruct boxes as [|box boxes].
  { injection Hrun as <- <-. exists [EvCrop b]. split; [done|].
    by repeat constructor. }
  destruct (paste out tile box) as [out1|e] eqn:Hpaste.
  2: { erewrite Py_bind_Raise in Hrun
         by (unfold Image_paste, lift; by rewrite Hpaste).
       injection Hrun as <- <-. exists [EvCrop b]. split; [done|].
       by repeat constructor. }
  erewrite Py_bind_Return in Hrun by (by apply Image_paste_Return).
  erewrite Py_bind_Return in Hrun by reflexivity.
  apply IH in Hrun as (evs & Hcalls & Hevs).
  exists ([EvCrop b; EvPaste box; EvClose TileImage] ++ evs). split.
  - rewrite Hcalls. cbn. by rewrite <-!app_assoc.
  - apply Forall_app. split; [by repeat constructor|done].
Qed.

Lemma rearrange_tiles_inv σ image_path tile_size (ordering : list Z)
    out_path r σ' :
  rearrange_tiles image_path tile_size ordering out_path σ = (r, σ') →
  (files σ !! image_path = None ∧
   r = Raise (FileNotFoundError image_path) ∧ σ' = σ) ∨
  ∃ f, files σ !! image_path = Some f ∧
    let σ0 := logged (EvOpen image_path) σ in
    let v := valid_input (file_size f) tile_size ordering in
    ((∃ e, v = Raise e ∧ r = Raise e ∧ σ' = logged (EvClose SourceImage) σ0) ∨
     (v = Return false ∧ r = Raise (ValueError invalid_message) ∧
      σ' = logged (EvClose SourceImage) σ0) ∨
     (v = Return true ∧
      ((∃ e, new_image (file_mode f) (file_size f) = Raise e ∧ r = Raise e ∧
             σ' = logged (EvClose SourceImage) σ0) ∨
       ∃ canvas rl σ2,
         new_image (file_mode f) (file_size f) = Return canvas ∧
         paste_loop (decode f) (tile_boxes (file_size f) tile_size) ordering
           (tile_boxes (file_size f) tile_size) canvas
           (logged (EvNew (file_mode f) (file_size f)) σ0) = (rl, σ2) ∧
         match rl with
         | Raise e =>
             r = Raise e ∧
             σ' = logged (EvClose SourceImage) (logged (EvClose CanvasImage) σ2)
         | Return out =>
             r = Return () ∧
             σ' = logged (EvClose SourceImage)
                    (logged (EvClose CanvasImage)
                       (World (<[out_path := encode (file_format f) out]> (files σ2))
                              (calls σ2 ++ [EvSave out_path (file_format f)])))
         end))).
Proof.
  intros Hrun.
  destruct (files σ !! image_path) as [f|] eqn:Hf.
  2: { left. rewrite rearrange_tiles_missing in Hrun by done.
       by injection Hrun as <- <-. }
  right. exists f. split; [done|]. intros σ0 v. subst v.
  destruct (valid_input (file_size f) tile_size ordering) as [[]|e] eqn:Hv.
  - right. right. split; [done|].
    unfold rearrange_tiles in Hrun.
    erewrite Py_bind_Return in Hrun by (unfold Image_open; by rewrite Hf).
    apply with_closing_inv in Hrun as (σ4 & Hrun & ->).
    erewrite Py_bind_Return in Hrun by (unfold lift; cbn; by rewrite Hv).
    cbn [negb decode im_mode im_size im_format] in Hrun.
    destruct (new_image (file_mode f) (file_size f)) as [canvas|e] eqn:Hnew.
    2: { left. exists e. split; [done|].
         erewrite Py_bind_Raise in Hrun; [by injection Hrun as <- <-|].
         unfold Image_new, lift. erewrite Py_bind_Raise; [done|]. by rewrite Hnew. }
    right. erewrite Py_bind_Return in Hrun by (by apply Image_new_Return).
    apply with_closing_inv in Hrun as (σ3 & Hrun & ->).
    apply Py_bind_inv in Hrun as [(out & σ2 & Hloop & Hsave)|(e & Hloop & ->)].
    + exists canvas, (Return out), σ2. split; [done|]. split; [exact Hloop|].
      by injection Hsave as <- <-.
    + exists canvas, (Raise e), σ3. split; [done|]. split; [exact Hloop|]. done.
  - right. left. split; [done|].
    rewrite (rearrange_tiles_rejected _ _ _ _ _ f) in Hrun by done.
    by injection Hrun as <- <-.
  - left. exists e. split; [done|].
    rewrite (rearrange_tiles_validator_raises _ _ _ _ _ f e) in Hrun by done.
    by injection Hrun as <- <-.
Qed.

(** ** What a run writes and which calls it makes *)



(** X8: the shape of the calls of any run on an image that can be opened.
    The source is opened first and closed last, on every exit path.  In
    between either nothing happens (the validator raised or returned
    [False], or the canvas could not be created), or one canvas of the
    source's mode and size is created, only crops, pastes and closings of
    cropped tiles follow, and the canvas is closed right before the
    source; the canvas is saved, once and after all tile calls, exactly
    when the run returns normally. *)
Theorem rearrange_tiles_calls σ image_path tile_size (ordering : list Z)
    out_path r σ' f :
  files σ !! image_path = Some f →
  rearrange_tiles image_path tile_size ordering out_path σ = (r, σ') →
  ∃ evs,
    calls σ' = calls σ ++ [EvOpen image_path] ++ evs ++ [EvClose SourceImage] ∧
    ((evs = [] ∧ ∃ e, r = Raise e) ∨
     ∃ tile_evs tail,
       evs = [EvNew (file_mode f) (file_size f)] ++ tile_evs ++ tail
               ++ [EvClose CanvasImage] ∧
       Forall tile_event tile_evs ∧
       ((tail = [EvSave out_path (file_format f)] ∧ r = Return ()) ∨
        (tail = [] ∧ ∃ e, r = Raise e))).
Proof.
  intros Hf Hrun. apply rearrange_tiles_inv in Hrun
    as [(Hnone & _)|(f' & Hf' & Hrun)]; [congruence|].
  rewrite Hf in Hf'. injection Hf' as <-. cbn zeta in Hrun.
  destruct Hrun as [(e & _ & -> & ->)|[(_ & -> & ->)|(_ & Hrun)]].
  - exists []. split; [cbn; by rewrite <-app_assoc|]. left. eauto.
  - exists []. split; [cbn; by rewrite <-app_assoc|]. left. eauto.
  - destruct Hrun as [(e & _ & -> & ->)|(canvas & rl & σ2 & _ & Hloop & Hrl)].
    { exists []. split; [cbn; by rewrite <-app_assoc|]. left. eauto. }
    apply paste_loop_calls in Hloop as (tile_evs & Hcalls & Htile).
    cbn in Hcalls. destruct rl as [out|e]; destruct Hrl as [-> ->].
    + eexists. split; [|right; exists tile_evs, [EvSave out_path (file_format f)];
                         split; [reflexivity|]; split; [done|by left]].
      cbn. rewrite Hcalls. by rewrite <-!app_assoc.
    + eexists. split; [|right; exists tile_evs, [];
                         split; [reflexivity|]; split; [done|right; eauto]].
      cbn. rewrite Hcalls. by rewrite <-!app_assoc.
Qed.

Lemma rearrange_tiles_calls_witness :
  ∃ evs,
    calls (rearrange_tiles "in44.png" (2, 2) [0; 1; 2; 3; 3] "out.png" world0).2
      = calls world0 ++ [EvOpen "in44.png"] ++ evs ++ [EvClose SourceImage] ∧
    ((evs = [] ∧ ∃ e, (Return () : result ()) = Raise e) ∨
     ∃ tile_evs tail,
       evs = [EvNew (file_mode img44) (file_size img44)] ++ tile_evs ++ tail
               ++ [EvClose CanvasImage] ∧
       Forall tile_event tile_evs ∧
       ((tail = [EvSave "out.png" (file_format img44)]
         ∧ (Return () : result ()) = Return ()) ∨
        (tail = [] ∧ ∃ e, (Return () : result ()) = Raise e))).
Proof.
  apply (rearrange_tiles_calls world0 "in44.png" (2, 2) [0; 1; 2; 3; 3]
           "out.png" (Return ()) _ img44); by vm_compute.
Defined.

(** ** The tile grid *)

(** X5: when the positive tile size divides the image dimensions, the
    tile boxes partition the image: every box is [w] by [h], a pixel lies
    in some box exactly when it lies in the image, and no pixel lies in
    two boxes. *)
Theorem tile_boxes_partition W H w h :
  0 < w → 0 < h → 0 ≤ W → 0 ≤ H →
  W `mod` w = 0 → H `mod` h = 0 →
  let tiles := tile_boxes (W, H) (w, h) in
  Forall (λ b, box_size b = (w, h)) tiles ∧
  (∀ x y, (0 ≤ x < W ∧ 0 ≤ y < H) ↔ ∃ k b, tiles !! k = Some b ∧ in_box b x y) ∧
  (∀ i j bi bj x y,
     tiles !! i = Some bi → tiles !! j = Some bj →
     in_box bi x y → in_box bj x y → i = j).
Proof.
  intros Hw Hh HW HH Hdw Hdh tiles. split_and!.
  - by apply grid_box_size.
  - intros x y. split.
    + intros [Hx Hy]. by apply grid_cover.
    + intros (k & b & Hb & Hbox).
      eapply (grid_inside W H w h); [..|exact Hb|exact Hbox]; done.
  - by apply grid_disjoint.
Qed.

Lemma tile_boxes_partition_witness :
  let tiles := tile_boxes (6, 4) (3, 2) in
  Forall (λ b, box_size b = (3, 2)) tiles ∧
  (∀ x y, (0 ≤ x < 6 ∧ 0 ≤ y < 4) ↔ ∃ k b, tiles !! k = Some b ∧ in_box b x y) ∧
  (∀ i j bi bj x y,
     tiles !! i = Some bi → tiles !! j = Some bj →
     in_box bi x y → in_box bj x y → i = j).
Proof. apply (tile_boxes_partition 6 4 3 2); by vm_compute. Defined.

(** ** Tile sizes that are not positive *)

Lemma list_bind_nil {A B} (l : list A) : l ≫= (λ _, @nil B) = [].
Proof. induction l as [|a l IH]; [done|]. by rewrite bind_cons, IH. Qed.

Lemma div_pos_neg a b : 0 < a → b < 0 → a `div` b < 0.
Proof.
  intros Ha Hb. pose proof (Z.div_mod a b ltac:(lia)).
  pose proof (Z.mod_neg_bound a b Hb). nia.
Qed.

Lemma tile_boxes_nonpositive W H w h :
  0 < W → 0 < H → w ≤ 0 ∨ h ≤ 0 → tile_boxes (W, H) (w, h) = [].
Proof.
  intros HW HH Hwh. unfold tile_boxes.
  destruct (decide (h ≤ 0)) as [Hh|Hh].
  - rewrite (seqZ_nil 0 (H `div` h)); [done|].
    destruct (decide (h = 0)) as [->|]; [by rewrite Z.div_0_r|].
    pose proof (div_pos_neg H h). lia.
  - rewrite (seqZ_nil 0 (W `div` w)).
    + apply list_bind_nil.
    + destruct (decide (w = 0)) as [->|]; [by rewrite Z.div_0_r|].
      pose proof (div_pos_neg W w). lia.
Qed.

Lemma valid_input_zero W H w h (ordering : list Z) :
  w = 0 ∨ h = 0 → ∃ e, valid_input (W, H) (w, h) ordering = Raise e.
Proof.
  unfold valid_input, py_mod. intros [->| ->].
  - eexists. reflexivity.
  - destruct (decide (w = 0)); eexists; reflexivity.
Qed.

Lemma paste_loop_no_tiles src o ordering boxes out σ :
  paste_loop src [] (o :: ordering) boxes out σ =
    (Raise (IndexError "list index out of range"), σ).
Proof.
  cbn [paste_loop]. apply Py_bind_Raise. unfold lift, py_getitem.
  by repeat case_decide.
Qed.

(** X9: on an image of positive size, a tile size with a zero or negative
    dimension never produces an output: the run raises (a
    [ZeroDivisionError] from the validator, the [ValueError] of a
    rejected input, or an [IndexError] from the empty tile list) and
    leaves every file as it was. *)
Theorem rearrange_tiles_nonpositive_tile σ image_path out_path f W H w h
    (ordering : list Z) :
  files σ !! image_path = Some f →
  file_size f = (W, H) → 0 < W → 0 < H →
  w ≤ 0 ∨ h ≤ 0 →
  let run := rearrange_tiles image_path (w, h) ordering out_path σ in
  ∃ e, run.1 = Raise e ∧ files run.2 = files σ.
Proof.
  intros Hf Hsz HW HH Hwh run.
  destruct run as [r σ'] eqn:Hrun. subst run. cbn [fst snd].
  apply rearrange_tiles_inv in Hrun as [(Hnone & _)|(f' & Hf' & Hrun)];
    [congruence|].
  rewrite Hf in Hf'. injection Hf' as <-. cbn zeta in Hrun.
  rewrite Hsz in Hrun.
  destruct Hrun as [(e & _ & -> & ->)|[(_ & -> & ->)|(Hv & Hrun)]];
    [by eexists..|].
  destruct Hrun as [(e & _ & -> & ->)|(canvas & rl & σ2 & _ & Hloop & Hrl)];
    [by eexists|].
  rewrite tile_boxes_nonpositive in Hloop by done.
  destruct ordering as [|o ordering].
  { exfalso.
    destruct (decide (w = 0)) as [Hw0|Hw0].
    { destruct (valid_input_zero W H w h [] (or_introl Hw0)) as [e He].
      congruence. }
    destruct (decide (h = 0)) as [Hh0|Hh0].
    { destruct (valid_input_zero W H w h [] (or_intror Hh0)) as [e He].
      congruence. }
    rewrite valid_input_nonzero in Hv by done.
    injection Hv as Hv. apply bool_decide_eq_true_1 in Hv.
    destruct Hv as (Hdw & Hdh & Hset).
    change (len_set []) with 0 in Hset.
    pose proof (Z.div_mod W w Hw0) as HWe. pose proof (Z.div_mod H h Hh0) as HHe.
    rewrite Hdw in HWe. rewrite Hdh in HHe. nia. }
  rewrite paste_loop_no_tiles in Hloop. injection Hloop as <- <-.
  destruct Hrl as [-> ->]. by eexists.
Qed.

Lemma rearrange_tiles_nonpositive_tile_witness :
  let run := rearrange_tiles "in44.png" (-2, -2) [0; 1; 2; 3] "out.png" world0 in
  ∃ e, run.1 = Raise e ∧ files run.2 = files world0.
Proof.
  apply (rearrange_tiles_nonpositive_tile world0 "in44.png" "out.png" img44
           4 4 (-2) (-2)); try done; try lia.
Defined.

(** ** Subscripts from the end, and orderings longer than the grid *)

Lemma py_getitem_wrap {A} (l : list A) (i : Z) :
  valid_index (Z.of_nat (length l)) i →
  py_getitem l i = py_getitem l (wrap_index (Z.of_nat (length l)) i).
Proof.
  unfold valid_index, py_getitem, wrap_index. intros Hi. cbn zeta.
  repeat case_decide; done || lia.
Qed.


Lemma wrap_index_range n i : valid_index n i → 0 ≤ wrap_index n i < n.
Proof. unfold valid_index, wrap_index. case_decide; lia. Qed.

(** The loop reads the tile list only through subscripts, so an ordering
    and its wrapped form drive it the same way. *)
Lemma paste_loop_wrap src ts ordering :
  ∀ boxes out σ,
    Forall (valid_index (Z.of_nat (length ts))) ordering →
    paste_loop src ts ordering boxes out σ =
    paste_loop src ts (wrap_index (Z.of_nat (length ts)) <$> ordering)
      boxes out σ.
Proof.
  induction ordering as [|i ordering IH]; intros boxes out σ Hval; [done|].
  apply Forall_cons_1 in Hval as [Hi Hval].
  cbn [paste_loop fmap list_fmap]. rewrite <-py_getitem_wrap by done.
  unfold Image_crop, Image_paste, call, lift.
  unfold mbind, Py_bind, mret, Py_ret.
  destruct (py_getitem ts i) as [b|e]; [|done].
  destruct (crop src b) as [tile|e]; [|done].
  destruct boxes as [|box boxes]; [done|].
  destruct (paste out tile box) as [out1|e]; [|done].
  by apply IH.
Qed.

(** The loop on [pre ++ rest] runs [pre] against as many boxes and then
    [rest] against the remaining ones. *)
Lemma paste_loop_app src ts pre rest :
  ∀ boxes out σ,
    (length pre ≤ length boxes)%nat →
    paste_loop src ts (pre ++ rest) boxes out σ =
    (paste_loop src ts pre (take (length pre) boxes) out
       ≫= λ out', paste_loop src ts rest (drop (length pre) boxes) out') σ.
Proof.
  induction pre as [|i pre IH]; intros boxes out σ Hlen; [done|].
  destruct boxes as [|box boxes]; [cbn in Hlen; lia|].
  cbn [app paste_loop length take drop].
  unfold Image_crop, Image_paste, call, lift.
  unfold mbind, Py_bind, mret, Py_ret.
  destruct (py_getitem ts i) as [b|e]; [|done].
  destruct (crop src b) as [tile|e]; [|done].
  destruct (paste out tile box) as [out1|e]; [|done].
  rewrite IH by (cbn in Hlen; lia). done.
Qed.

Lemma paste_loop_exhausted src ts o rest out σ :
  paste_loop src ts (o :: rest) [] out σ =
    match py_getitem ts o with
    | Return b =>
        match crop src b with
        | Return _ => (Return out, logged (EvCrop b) σ)
        | Raise e => (Raise e, σ)
        end
    | Raise e => (Raise e, σ)
    end.
Proof.
  cbn [paste_loop]. unfold Image_crop, call, lift.
  unfold mbind, Py_bind, mret, Py_ret.
  destruct (py_getitem ts o) as [b|e]; [|done].
  by destruct (crop src b).
Qed.


(** The loop on a list of valid subscripts, as many as there are boxes:
    it returns, and every box holds the source content of the tile its
    subscript reads. *)
Lemma paste_loop_valid src ts w h W H :
  0 ≤ w → 0 ≤ h →
  Forall (λ b, box_size b = (w, h)) ts →
  ∀ ordering boxes out σ,
    Forall (valid_index (Z.of_nat (length ts))) ordering →
    length ordering = length boxes →
    Forall (λ b, box_size b = (w, h)) boxes →
    boxes_disjoint boxes →
    im_size out = (W, H) → wf_image out →
    ∃ out' σ',
      paste_loop src ts ordering boxes out σ = (Return out', σ') ∧
      files σ' = files σ ∧
      im_mode out' = im_mode out ∧ im_size out' = (W, H) ∧ wf_image out' ∧
      ∀ k o b bs x y,
        ordering !! k = Some o → boxes !! k = Some b →
        ts !! Z.to_nat (wrap_index (Z.of_nat (length ts)) o) = Some bs →
        in_box b x y → 0 ≤ x < W → 0 ≤ y < H →
        px (im_data out') x y =
          px (im_data src) ((box_origin bs).1 + (x - (box_origin b).1))
                           ((box_origin bs).2 + (y - (box_origin b).2)).
Proof.
  intros Hw Hh Hts ordering boxes out σ Hval Hlen Hboxes Hdisj Hsz Hwf.
  rewrite paste_loop_wrap by done.
  destruct (paste_loop_spec src ts w h W H Hw Hh Hts
              (wrap_index (Z.of_nat (length ts)) <$> ordering) boxes out σ)
    as (out' & σ' & Hrun & Hfiles & Hm & Hs & _ & Hwf' & Hpx & _);
    [|by rewrite length_fmap|done..|].
  { apply Forall_fmap, Forall_lookup. intros k i Hi. cbn.
    apply wrap_index_range. by eapply (proj1 (Forall_lookup _ _) Hval). }
  exists out', σ'. split_and!; [done..|].
  intros k o b bs x y Ho Hb Hbs Hbox Hx Hy.
  apply (Hpx k (wrap_index (Z.of_nat (length ts)) o) b bs); [|done..].
  by rewrite list_lookup_fmap, Ho.
Qed.

(** A run whose validator returned [True] is the loop followed by the
    save. *)
Lemma rearrange_tiles_accepted_run σ image_path out_path tile_size
    (ordering : list Z) f canvas rl σ2 :
  files σ !! image_path = Some f →
  valid_input (file_size f) tile_size ordering = Return true →
  new_image (file_mode f) (file_size f) = Return canvas →
  paste_loop (decode f) (tile_boxes (file_size f) tile_size) ordering
    (tile_boxes (file_size f) tile_size) canvas
    (logged (EvNew (file_mode f) (file_size f)) (logged (EvOpen image_path) σ))
    = (rl, σ2) →
  rearrange_tiles image_path tile_size ordering out_path σ =
    match rl with
    | Return out =>
        (Return (),
         logged (EvClose SourceImage)
           (logged (EvClose CanvasImage)
              (World (<[out_path := encode (file_format f) out]> (files σ2))
                     (calls σ2 ++ [EvSave out_path (file_format f)]))))
    | Raise e =>
        (Raise e,
         logged (EvClose SourceImage) (logged (EvClose CanvasImage) σ2))
    end.
Proof.
  intros Hf Hv Hnew Hloop. unfold rearrange_tiles.
  erewrite Py_bind_Return; [|unfold Image_open; by rewrite Hf].
  destruct rl as [out|e].
  - erewrite with_closing_eq; [reflexivity|].
    erewrite Py_bind_Return; [|unfold lift; cbn; by rewrite Hv].
    cbn [negb decode im_mode im_size im_format].
    erewrite Py_bind_Return; [|by apply Image_new_Return].
    erewrite with_closing_eq; [reflexivity|].
    erewrite Py_bind_Return; [|exact Hloop]. reflexivity.
  - erewrite with_closing_eq; [reflexivity|].
    erewrite Py_bind_Return; [|unfold lift; cbn; by rewrite Hv].
    cbn [negb decode im_mode im_size im_format].
    erewrite Py_bind_Return; [|by apply Image_new_Return].
    erewrite with_closing_eq; [reflexivity|].
    erewrite Py_bind_Raise; [|exact Hloop]. reflexivity.
Qed.

Section accepted.
Variables W H w h : Z.
Hypothesis w_pos : 0 < w.
Hypothesis h_pos : 0 < h.
Variable f : file.
Hypothesis f_size : file_size f = (W, H).
Hypothesis f_wf : wf_file f.
Variable ordering : list Z.
Hypothesis accepted : valid_input (W, H) (w, h) ordering = Return true.

Let tiles := tile_boxes (W, H) (w, h).
Let N := (W `div` w) * (H `div` h).

Lemma accepted_facts :
  0 ≤ W ∧ 0 ≤ H ∧ W `mod` w = 0 ∧ H `mod` h = 0 ∧
  Z.of_nat (length tiles) = N ∧ (length tiles ≤ length ordering)%nat ∧
  Forall (λ b, box_size b = (w, h)) tiles ∧ boxes_disjoint tiles.
Proof.
  assert (0 ≤ W ∧ 0 ≤ H) as [HW HH].
  { destruct f_wf as (? & ? & _). rewrite f_size in *. done. }
  pose proof accepted as Hv. rewrite valid_input_nonzero in Hv by lia.
  injection Hv as Hv. apply bool_decide_eq_true_1 in Hv.
  destruct Hv as (Hdw & Hdh & Hset).
  pose proof (grid_length W H w h w_pos h_pos HW HH) as Hlen.
  pose proof (len_set_le_length ordering).
  split_and!; try done.
  - subst tiles. lia.
  - by apply grid_box_size.
  - by apply grid_disjoint.
Qed.

Lemma accepted_loop canvas σ1 :
  im_size canvas = (W, H) → wf_image canvas →
  Forall (valid_index N) (take (S (length tiles)) ordering) →
  ∃ out σ2,
    paste_loop (decode f) tiles ordering tiles canvas σ1 = (Return out, σ2) ∧
    files σ2 = files σ1 ∧
    im_mode out = im_mode canvas ∧ im_size out = (W, H) ∧ wf_image out ∧
    ∀ k o b bs x y,
      ordering !! k = Some o → tiles !! k = Some b →
      tiles !! Z.to_nat (wrap_index N o) = Some bs →
      in_box b x y →
      px (im_data out) x y =
        px (file_data f) ((box_origin bs).1 + (x - (box_origin b).1))
                         ((box_origin bs).2 + (y - (box_origin b).2)).
Proof.
  intros Hcs Hcwf Hval.
  destruct accepted_facts as (HW & HH & Hdw & Hdh & Hlen & Hle & Hts & Hdisj).
  assert (Forall (valid_index (Z.of_nat (length tiles))) (take (length tiles) ordering))
    as Hpre.
  { rewrite Hlen. apply Forall_lookup. intros k o Hk.
    apply lookup_take_Some in Hk as [Hk Hkn].
    apply (proj1 (Forall_lookup _ _) Hval k). rewrite lookup_take_lt by lia.
    done. }
  destruct (paste_loop_valid (decode f) tiles w h W H ltac:(lia) ltac:(lia)
              Hts (take (length tiles) ordering) tiles canvas σ1)
    as (out & σ2 & Hrun & Hfiles & Hm & Hs & Hwf & Hpx);
    [done|rewrite length_take; lia|done..|].
  assert (∃ σ3, paste_loop (decode f) tiles (drop (length tiles) ordering) [] out σ2
                = (Return out, σ3) ∧ files σ3 = files σ2) as (σ3 & Hrest & Hf3).
  { destruct (drop (length tiles) ordering) as [|o rest] eqn:Hdrop; [by exists σ2|].
    assert (ordering !! length tiles = Some o) as Ho.
    { rewrite <-(Nat.add_0_r (length tiles)), <-lookup_drop, Hdrop. done. }
    assert (valid_index N o) as Hvo.
    { apply (proj1 (Forall_lookup _ _) Hval (length tiles)). by rewrite lookup_take_lt by lia. }
    rewrite <-Hlen in Hvo.
    rewrite paste_loop_exhausted, py_getitem_wrap by done.
    apply wrap_index_range in Hvo.
    destruct (lookup_lt_is_Some_2 tiles
                (Z.to_nat (wrap_index (Z.of_nat (length tiles)) o)))
      as [b Hb]; [lia|].
    erewrite py_getitem_lookup by (done || lia).
    pose proof (proj1 (Forall_lookup _ _) Hts _ _ Hb) as Hbs.
    destruct b as [[[x0 y0] x1] y1]. cbn in Hbs. injection Hbs as ??.
    destruct (crop_spec (decode f) x0 y0 x1 y1) as (t & -> & _); [lia..|].
    by eexists. }
  exists out, σ3. split_and!; try done.
  - rewrite <-(take_drop (length tiles) ordering) at 1.
    rewrite paste_loop_app by (rewrite length_take; lia).
    rewrite length_take, Nat.min_l by lia.
    rewrite firstn_all, drop_all.
    erewrite Py_bind_Return; [|exact Hrun]. exact Hrest.
  - congruence.
  - intros k o b bs x y Ho Hb Hbs Hbox.
    pose proof (lookup_lt_Some _ _ _ Hb) as Hk.
    assert (0 ≤ x < W ∧ 0 ≤ y < H) as [Hx Hy]
      by (eapply (grid_inside W H w h); [..|exact Hb|exact Hbox]; done).
    apply (Hpx k o b bs); try done.
    + by rewrite lookup_take_lt by lia.
    + by rewrite Hlen.
Qed.

End accepted.

(** X10: what an accepted ordering produces.  Whenever the validator
    returns [True] for positive tile dimensions and the first [N + 1]
    entries of [ordering] are valid subscripts of the tile list ([N] its
    length), the run succeeds and box [tiles[i]] of the output holds the
    source content of [tiles[ordering[i]]] for every [i < N], with
    Python's subscript semantics: the ordering need not be a permutation,
    negative entries count from the end of the tile list, and entries
    beyond the first [N + 1] are never read. *)
Theorem rearrange_tiles_accepted_content σ image_path out_path f W H w h
    (ordering : list Z) :
  files σ !! image_path = Some f →
  file_size f = (W, H) → wf_file f →
  0 < w → 0 < h →
  valid_input (W, H) (w, h) ordering = Return true →
  let tiles := tile_boxes (W, H) (w, h) in
  Forall (valid_index (Z.of_nat (length tiles)))
    (take (S (length tiles)) ordering) →
  ∃ σ' out,
    rearrange_tiles image_path (w, h) ordering out_path σ = (Return (), σ') ∧
    files σ' !! out_path = Some out ∧
    ∀ i : nat, (i < length tiles)%nat →
      ∃ o bi bo,
        ordering !! i = Some o ∧ tiles !! i = Some bi ∧
        py_getitem tiles o = Return bo ∧
        crop (decode out) bi = crop (decode f) bo.
Proof.
  intros Hf Hsz Hwf Hw Hh Hv tiles Hval.
  destruct (accepted_facts W H w h Hw Hh f Hsz Hwf ordering Hv)
    as (HW & HH & Hdw & Hdh & Hlen & Hle & Hts & Hdisj).
  fold tiles in Hlen, Hle, Hts, Hdisj.
  destruct (new_image_spec (file_mode f) W H HW HH)
    as (canvas & Hnew & Hcm & Hcs & Hcf & Hcwf).
  destruct (accepted_loop W H w h Hw Hh f Hsz Hwf ordering Hv canvas
              (logged (EvNew (file_mode f) (W, H)) (logged (EvOpen image_path) σ)))
    as (out & σ2 & Hloop & Hfiles & Hom & Hos & Howf & Hpx);
    [done|done|by rewrite <-Hlen|].
  fold tiles in Hloop, Hpx.
  pose proof (rearrange_tiles_accepted_run σ image_path out_path (w, h)
                ordering f canvas (Return out) σ2 Hf) as Hrun.
  rewrite Hsz in Hrun. specialize (Hrun Hv Hnew Hloop).
  eexists _, _. split; [exact Hrun|].
  split; [cbn; by rewrite lookup_insert_eq|].
  intros i Hi.
  destruct (lookup_lt_is_Some_2 ordering i) as [o Ho]; [lia|].
  destruct (lookup_lt_is_Some_2 tiles i) as [bi Hbi]; [lia|].
  assert (valid_index (Z.of_nat (length tiles)) o) as Hvo.
  { apply (proj1 (Forall_lookup _ _) Hval i). by rewrite lookup_take_lt by lia. }
  pose proof (wrap_index_range _ _ Hvo) as Hwr.
  destruct (lookup_lt_is_Some_2 tiles
              (Z.to_nat (wrap_index (Z.of_nat (length tiles)) o)))
    as [bo Hbo]; [lia|].
  exists o, bi, bo. split; [done|]. split; [done|]. split.
  { rewrite py_getitem_wrap by done. apply py_getitem_lookup; [lia|done]. }
  pose proof (proj1 (Forall_lookup _ _) Hts _ _ Hbi) as Hbis.
  pose proof (proj1 (Forall_lookup _ _) Hts _ _ Hbo) as Hbos.
  apply crop_ext; [cbn; congruence|congruence|].
  intros dx dy Hdx Hdy. cbn [decode encode im_data file_data].
  rewrite Hbis in Hdx, Hdy. cbn in Hdx, Hdy.
  erewrite (Hpx i o bi bo); [f_equal; lia|done|done|by rewrite <-Hlen|].
  destruct bi as [[[x0 y0] x1] y1]. cbn in Hbis |- *.
  injection Hbis as ??. lia.
Qed.

(** Tile 3 is read through the subscript -1, tiles 1 and 2 are never
    used, and the entries 99 and 7 past the fifth are never looked at. *)
Lemma rearrange_tiles_accepted_content_witness :
  let ordering := [-1; 0; -1; 0; -1; 99; 7] in
  let tiles := tile_boxes (4, 4) (2, 2) in
  ∃ σ' out,
    rearrange_tiles "in44.png" (2, 2) ordering "out.png" world0 = (Return (), σ') ∧
    files σ' !! "out.png" = Some out ∧
    ∀ i : nat, (i < length tiles)%nat →
      ∃ o bi bo,
        ordering !! i = Some o ∧ tiles !! i = Some bi ∧
        py_getitem tiles o = Return bo ∧
        crop (decode out) bi = crop (decode img44) bo.
Proof.
  apply (rearrange_tiles_accepted_content world0 "in44.png" "out.png" img44
           4 4 2 2 [-1; 0; -1; 0; -1; 99; 7]).
  - by vm_compute.
  - reflexivity.
  - unfold wf_file, wf_rows. cbn. split_and!; try lia. by repeat constructor.
  - lia.
  - lia.
  - by vm_compute.
  - apply (bool_decide_unpack _). by vm_compute.
Defined.




(** ** Composition *)

Lemma compose_ordering_lookup (P Q : list Z) (k : nat) (q : Z) :
  Q !! k = Some q →
  compose_ordering P Q !! k = Some (default 0 (P !! Z.to_nat q)).
Proof. intros Hq. unfold compose_ordering. by rewrite list_lookup_fmap, Hq. Qed.

Lemma compose_ordering_facts (n : Z) (P Q : list Z) :
  P ≡ₚ seqZ 0 n → Q ≡ₚ seqZ 0 n →
  length (compose_ordering P Q) = Z.to_nat n ∧
  Forall (λ i, 0 ≤ i < n) (compose_ordering P Q) ∧
  NoDup (compose_ordering P Q).
Proof.
  intros HP HQ.
  apply arrangement_facts in HP as (HPl & HPr & HPn).
  apply arrangement_facts in HQ as (HQl & HQr & HQn).
  assert (∀ k v, compose_ordering P Q !! k = Some v →
            ∃ q, Q !! k = Some q ∧ 0 ≤ q < n ∧ P !! Z.to_nat q = Some v)
    as Hinv.
  { intros k v Hk. unfold compose_ordering in Hk.
    rewrite list_lookup_fmap in Hk.
    destruct (Q !! k) as [q|] eqn:Hq; [|done]. cbn in Hk.
    pose proof (proj1 (Forall_lookup _ _) HQr _ _ Hq) as Hqr. cbn beta in Hqr.
    destruct (lookup_lt_is_Some_2 P (Z.to_nat q)) as [p Hp]; [lia|].
    rewrite Hp in Hk. cbn in Hk. injection Hk as <-. by exists q. }
  split_and!.
  - unfold compose_ordering. by rewrite length_fmap.
  - apply Forall_lookup. intros k v Hk.
    apply Hinv in Hk as (q & _ & _ & Hp).
    by apply (proj1 (Forall_lookup _ _) HPr _ _ Hp).
  - apply NoDup_alt. intros i j v Hi Hj.
    apply Hinv in Hi as (qi & Hqi & Hri & Hpi).
    apply Hinv in Hj as (qj & Hqj & Hrj & Hpj).
    pose proof (NoDup_lookup _ _ _ _ HPn Hpi Hpj) as Heq.
    assert (qi = qj) as -> by lia.
    by apply (NoDup_lookup _ _ _ _ HQn Hqi Hqj).
Qed.

(** X13: rearrangements compose.  For permutations [P] and [Q] of the
    tile indices, rearranging by [P] and then rearranging the result by
    [Q] writes the same file as one rearrangement of the source by
    [[P[q] for q in Q]]. *)
Theorem rearrange_tiles_compose σ image_path mid_path out_path f W H w h
    (P Q : list Z) :
  files σ !! image_path = Some f →
  file_size f = (W, H) → wf_file f →
  0 < w → 0 < h → W `mod` w = 0 → H `mod` h = 0 →
  P ≡ₚ seqZ 0 ((W `div` w) * (H `div` h)) →
  Q ≡ₚ seqZ 0 ((W `div` w) * (H `div` h)) →
  ∃ σ1 σ2 σ3 out,
    rearrange_tiles image_path (w, h) P mid_path σ = (Return (), σ1) ∧
    rearrange_tiles mid_path (w, h) Q out_path σ1 = (Return (), σ2) ∧
    rearrange_tiles image_path (w, h) (compose_ordering P Q) out_path σ
      = (Return (), σ3) ∧
    files σ2 !! out_path = Some out ∧
    files σ3 !! out_path = Some out.
Proof.
  intros Hfile Hsz Hwf Hw Hh Hdw Hdh HP HQ.
  assert (0 ≤ W ∧ 0 ≤ H) as [HW HH].
  { destruct Hwf as (? & ? & _). rewrite Hsz in *. done. }
  set (tiles := tile_boxes (W, H) (w, h)).
  pose proof (grid_length W H w h Hw Hh HW HH) as Hlen. fold tiles in Hlen.
  destruct (compose_ordering_facts _ _ _ HP HQ) as (HCl & HCr & HCn).
  destruct (arrangement_facts _ _ HP) as (HPl & HPr & HPn).
  destruct (arrangement_facts _ _ HQ) as (HQl & HQr & HQn).
  destruct (rearrange_tiles_run W H w h Hw Hh Hdw Hdh f Hsz Hwf
              σ image_path mid_path P) as (data1 & evs1 & Hrun1 & Hwf1 & Hpx1).
  { done. } { fold tiles. lia. } { fold tiles. by rewrite Hlen. } { done. }
  set (mid := File (file_format f) (file_mode f) (W, H) data1) in *.
  set (σ1 := World (<[mid_path := mid]> (files σ)) evs1) in *.
  destruct (rearrange_tiles_run W H w h Hw Hh Hdw Hdh mid eq_refl Hwf1
              σ1 mid_path out_path Q) as (data2 & evs2 & Hrun2 & Hwf2 & Hpx2).
  { cbn. by rewrite lookup_insert_eq. }
  { fold tiles. lia. } { fold tiles. by rewrite Hlen. } { done. }
  destruct (rearrange_tiles_run W H w h Hw Hh Hdw Hdh f Hsz Hwf
              σ image_path out_path (compose_ordering P Q))
    as (data3 & evs3 & Hrun3 & Hwf3 & Hpx3).
  { done. } { fold tiles. lia. } { fold tiles. by rewrite Hlen. } { done. }
  fold tiles in Hpx1, Hpx2, Hpx3.
  eexists _, _, _, _. split; [exact Hrun1|]. split; [exact Hrun2|].
  split; [exact Hrun3|]. cbn. rewrite !lookup_insert_eq. split; [done|].
  do 2 f_equal. apply (wf_rows_ext W H); [done..|]. intros x y Hx Hy.
  assert (∃ k b, tiles !! k = Some b ∧ in_box b x y)
    as (k & b & Hb & Hbox) by (by apply grid_cover).
  pose proof (lookup_lt_Some _ _ _ Hb) as Hk.
  destruct (lookup_lt_is_Some_2 Q k) as [q Hq]; [lia|].
  pose proof (proj1 (Forall_lookup _ _) HQr _ _ Hq) as Hqr. cbn beta in Hqr.
  destruct (lookup_lt_is_Some_2 P (Z.to_nat q)) as [p Hp]; [lia|].
  pose proof (proj1 (Forall_lookup _ _) HPr _ _ Hp) as Hpr. cbn beta in Hpr.
  destruct (lookup_lt_is_Some_2 tiles (Z.to_nat q)) as [bq Hbq]; [lia|].
  destruct (lookup_lt_is_Some_2 tiles (Z.to_nat p)) as [bp Hbp]; [lia|].
  assert (Forall (λ b, box_size b = (w, h)) tiles) as Hts
    by (by apply grid_box_size).
  pose proof (proj1 (Forall_lookup _ _) Hts _ _ Hb) as Hbs.
  pose proof (proj1 (Forall_lookup _ _) Hts _ _ Hbq) as Hbqs.
  rewrite (Hpx3 k p b bp x y); [|by erewrite compose_ordering_lookup, Hp|done..].
  rewrite (Hpx2 k q b bq x y) by done. cbn [file_data mid].
  rewrite (Hpx1 (Z.to_nat q) p bq bp); [f_equal; lia|done..|].
  destruct b as [[[x0 y0] x1] y1], bq as [[[u0 v0] u1] v1].
  cbn in Hbs, Hbqs, Hbox |- *.
  injection Hbs as ??. injection Hbqs as ??. lia.
Qed.

Lemma rearrange_tiles_compose_witness :
  ∃ σ1 σ2 σ3 out,
    rearrange_tiles "in44.png" (2, 2) [1; 2; 3; 0] "mid.png" world0
      = (Return (), σ1) ∧
    rearrange_tiles "mid.png" (2, 2) [0; 2; 1; 3] "out.png" σ1 = (Return (), σ2) ∧
    rearrange_tiles "in44.png" (2, 2)
      (compose_ordering [1; 2; 3; 0] [0; 2; 1; 3]) "out.png" world0
      = (Return (), σ3) ∧
    files σ2 !! "out.png" = Some out ∧
    files σ3 !! "out.png" = Some out.
Proof.
  apply (rearrange_tiles_compose world0 "in44.png" "mid.png" "out.png"
           img44 4 4 2 2 [1; 2; 3; 0] [0; 2; 1; 3]).
  - by vm_compute.
  - reflexivity.
  - unfold wf_file, wf_rows. cbn. split_and!; try lia. by repeat constructor.
  - lia.
  - lia.
  - reflexivity.
  - reflexivity.
  - apply (bool_decide_unpack _). by vm_compute.
  - apply (bool_decide_unpack _). by vm_compute.
Defined.

(** * The enumeration that ordering indexes *)

Lemma py_getitem_nonneg {A} (l : list A) (i : Z) (a : A) :
  0 ≤ i → py_getitem l i = Return a → l !! Z.to_nat i = Some a.
Proof.
  intros Hi. unfold py_getitem.
  rewrite (decide_False (P := i < 0)) by lia.
  rewrite decide_True by done.
  destruct (l !! Z.to_nat i); [|done]. by intros [= ->].
Qed.

(** A loop that returns has made, for each entry of the ordering in turn,
    the three calls of one tile: the crop at the box the entry subscripts
    and the paste at the box of the same position. *)
Lemma paste_loop_trace src ts ordering :
  ∀ boxes out σ out' σ',
    length ordering = length boxes →
    paste_loop src ts ordering boxes out σ = (Return out', σ') →
    ∃ crops,
      Forall2 (λ o bs, py_getitem ts o = Return bs) ordering crops ∧
      calls σ' = calls σ ++ mjoin (zip_with tile_calls crops boxes).
Proof.
  induction ordering as [|i ordering IH]; intros boxes out σ out' σ' Hlen Hrun.
  { injection Hrun as <- <-. exists []. split; [constructor|].
    by rewrite app_nil_r. }
  destruct boxes as [|box boxes]; [done|].
  cbn [paste_loop] in Hrun.
  destruct (py_getitem ts i) as [b|e] eqn:Hget.
  2: { by erewrite Py_bind_Raise in Hrun by reflexivity. }
  erewrite Py_bind_Return in Hrun by reflexivity.
  destruct (crop src b) as [tile|e] eqn:Hcrop.
  2: { by erewrite Py_bind_Raise in Hrun
         by (unfold Image_crop, lift; by rewrite Hcrop). }
  erewrite Py_bind_Return in Hrun by (by apply Image_crop_Return).
  destruct (paste out tile box) as [out1|e] eqn:Hpaste.
  2: { by erewrite Py_bind_Raise in Hrun
         by (unfold Image_paste, lift; by rewrite Hpaste). }
  erewrite Py_bind_Return in Hrun by (by apply Image_paste_Return).
  erewrite Py_bind_Return in Hrun by reflexivity.
  apply IH in Hrun as (crops & Hcrops & Hcalls); [|by injection Hlen].
  exists (b :: crops). split; [by constructor|].
  rewrite Hcalls. cbn. by rewrite <-!app_assoc.
Qed.

Lemma grid_box_lookup W H w h k b :
  0 < w → 0 < h → 0 ≤ W → 0 ≤ H →
  tile_boxes (W, H) (w, h) !! k = Some b →
  b = grid_box (W `div` w) w h (Z.of_nat k).
Proof.
  intros Hw Hh HW HH Hk.
  apply (grid_lookup_inv W H w h Hw Hh HW HH) in Hk
    as (r & c & Hr & Hc & Hi & ->).
  unfold grid_box. cbn zeta.
  assert (Z.of_nat k `mod` (W `div` w) = c) as ->.
  { symmetry. apply (Z.mod_unique _ _ r); lia. }
  assert (Z.of_nat k `div` (W `div` w) = r) as ->.
  { symmetry. apply (Z.div_unique _ _ _ c); lia. }
  done.
Qed.

(** C5: [rearrange_tiles] enumerates the tile boxes in row-major order,
    columns varying fastest, and [ordering] indexes into exactly this
    enumeration.  For a positive tile size dividing the image dimensions:
    the tile list has [rows * cols] entries and the one at flat index
    [r * cols + c] is the box [(c*w, r*h, (c+1)*w, (r+1)*h)]; and on a
    valid arrangement the run makes, for each position [i] in turn, a
    crop of the source at the box of flat index [ordering[i]] and a paste
    at the box of flat index [i], between the creation of the canvas and
    its saving. *)
Theorem rearrange_tiles_row_major σ image_path out_path f W H w h
    (ordering : list Z) :
  files σ !! image_path = Some f →
  file_size f = (W, H) → wf_file f →
  0 < w → 0 < h → W `mod` w = 0 → H `mod` h = 0 →
  ordering ≡ₚ seqZ 0 ((W `div` w) * (H `div` h)) →
  let cols := W `div` w in
  let rows := H `div` h in
  let tiles := tile_boxes (W, H) (w, h) in
  Z.of_nat (length tiles) = rows * cols ∧
  (∀ r c, 0 ≤ r < rows → 0 ≤ c < cols →
     tiles !! Z.to_nat (r * cols + c) =
       Some (c * w, r * h, (c + 1) * w, (r + 1) * h) ∧
     grid_box cols w h (r * cols + c) =
       (c * w, r * h, (c + 1) * w, (r + 1) * h)) ∧
  ∃ σ',
    rearrange_tiles image_path (w, h) ordering out_path σ = (Return (), σ') ∧
    calls σ' =
      calls σ ++ [EvOpen image_path; EvNew (file_mode f) (W, H)] ++
      mjoin (imap (λ i o, tile_calls (grid_box cols w h o)
                            (grid_box cols w h (Z.of_nat i))) ordering) ++
      [EvSave out_path (file_format f); EvClose CanvasImage;
       EvClose SourceImage].
Proof.
  intros Hfile Hsz Hwf Hw Hh Hdw Hdh Hperm cols rows tiles.
  assert (0 ≤ W ∧ 0 ≤ H) as [HW HH].
  { destruct Hwf as (? & ? & _). rewrite Hsz in *. done. }
  pose proof (grid_length W H w h Hw Hh HW HH) as Hlen.
  fold tiles cols rows in Hlen.
  split; [lia|]. split.
  { intros r c Hr Hc. split; [by apply tile_boxes_lookup|].
    unfold grid_box. cbn zeta.
    assert ((r * cols + c) `mod` cols = c) as ->.
    { symmetry. apply (Z.mod_unique _ _ r); lia. }
    assert ((r * cols + c) `div` cols = r) as ->.
    { symmetry. apply (Z.div_unique _ _ _ c); lia. }
    done. }
  apply arrangement_facts in Hperm as (Hol & Hor & Hnd).
  fold cols rows in Hol, Hor.
  assert (valid_input (file_size f) (w, h) ordering = Return true) as Hv.
  { rewrite Hsz, valid_input_nonzero by lia.
    rewrite bool_decide_eq_true_2; [done|]. split_and!; [done..|].
    rewrite len_set_NoDup, Hol by done. fold cols rows. lia. }
  destruct (new_image_spec (file_mode f) W H HW HH)
    as (canvas & Hnew & Hcm & Hcs & Hcf & Hcwf).
  assert (Forall (λ b, box_size b = (w, h)) tiles) as Hts
    by (by apply grid_box_size).
  set (σ1 := logged (EvNew (file_mode f) (W, H)) (logged (EvOpen image_path) σ)).
  destruct (paste_loop_spec (decode f) tiles w h W H ltac:(lia) ltac:(lia)
              Hts ordering tiles canvas σ1)
    as (out & σ2 & Hloop & _);
    [by rewrite Hlen|lia|done|by apply grid_disjoint|done|done|].
  assert (length ordering = length tiles) as Hlt by lia.
  pose proof (paste_loop_trace _ _ _ _ _ _ _ _ Hlt Hloop)
    as (crops & Hcrops & Hcalls).
  pose proof (rearrange_tiles_accepted_run σ image_path out_path (w, h)
                ordering f canvas (Return out) σ2 Hfile Hv) as Hrun.
  rewrite Hsz in Hrun. specialize (Hrun Hnew Hloop).
  eexists. split; [exact Hrun|].
  cbn -[tile_boxes]. rewrite Hcalls. cbn -[tile_boxes].
  rewrite <-!app_assoc. cbn -[tile_boxes]. do 5 f_equal. fold tiles.
  apply list_eq. intros i.
  rewrite lookup_zip_with, list_lookup_imap.
  destruct (ordering !! i) as [o|] eqn:Ho.
  - destruct (Forall2_lookup_l _ _ _ _ _ Hcrops Ho) as (bs & Hbs & Hget).
    pose proof (lookup_lt_Some _ _ _ Ho) as Hi.
    destruct (lookup_lt_is_Some_2 tiles i) as [b Hb]; [lia|].
    rewrite Hbs, Hb.
    pose proof (proj1 (Forall_lookup _ _) Hor _ _ Ho) as Hrange.
    cbn beta in Hrange.
    apply py_getitem_nonneg in Hget; [|lia].
    apply (grid_box_lookup W H w h _ _ Hw Hh HW HH) in Hget, Hb.
    rewrite Z2Nat.id in Hget by lia. by rewrite Hget, Hb.
  - assert (length ordering = length crops) as Hlc
      by (by eapply Forall2_length).
    apply lookup_ge_None_1 in Ho.
    rewrite (lookup_ge_None_2 crops); [done|lia].
Qed.

Lemma rearrange_tiles_row_major_witness :
  let cols := 4 `div` 2 in
  let rows := 4 `div` 2 in
  let tiles := tile_boxes (4, 4) (2, 2) in
  Z.of_nat (length tiles) = rows * cols ∧
  (∀ r c, 0 ≤ r < rows → 0 ≤ c < cols →
     tiles !! Z.to_nat (r * cols + c) =
       Some (c * 2, r * 2, (c + 1) * 2, (r + 1) * 2) ∧
     grid_box cols 2 2 (r * cols + c) =
       (c * 2, r * 2, (c + 1) * 2, (r + 1) * 2)) ∧
  ∃ σ',
    rearrange_tiles "in44.png" (2, 2) [2; 3; 0; 1] "out.png" world0
      = (Return (), σ') ∧
    calls σ' =
      calls world0 ++ [EvOpen "in44.png"; EvNew (file_mode img44) (4, 4)] ++
      mjoin (imap (λ i o, tile_calls (grid_box cols 2 2 o)
                            (grid_box cols 2 2 (Z.of_nat i))) [2; 3; 0; 1]) ++
      [EvSave "out.png" (file_format img44); EvClose CanvasImage;
       EvClose SourceImage].
Proof.
  apply (rearrange_tiles_row_major world0 "in44.png" "out.png" img44
           4 4 2 2 [2; 3; 0; 1]).
  - by vm_compute.
  - reflexivity.
  - unfold wf_file, wf_rows. cbn. split_and!; try lia. by repeat constructor.
  - lia.
  - lia.
  - reflexivity.
  - reflexivity.
  - apply (bool_decide_unpack _). by vm_compute.
Defined.

(** * Runs with a save that may fail *)

Lemma rearrange_tiles_with_Image_save :
  rearrange_tiles_with Image_save = rearrange_tiles.
Proof. reflexivity. Qed.

(** A run, step by step, whatever [save] does. *)
Lemma rearrange_tiles_with_cases save σ image_path tile_size
    (ordering : list Z) out_path :
  rearrange_tiles_with save image_path tile_size ordering out_path σ =
  match files σ !! image_path with
  | None => (Raise (FileNotFoundError image_path), σ)
  | Some f =>
      let σ0 := logged (EvOpen image_path) σ in
      match valid_input (file_size f) tile_size ordering with
      | Raise e => (Raise e, logged (EvClose SourceImage) σ0)
      | Return false =>
          (Raise (ValueError invalid_message), logged (EvClose SourceImage) σ0)
      | Return true =>
          match new_image (file_mode f) (file_size f) with
          | Raise e => (Raise e, logged (EvClose SourceImage) σ0)
          | Return canvas =>
              let '(rl, σ2) :=
                paste_loop (decode f) (tile_boxes (file_size f) tile_size)
                  ordering (tile_boxes (file_size f) tile_size) canvas
                  (logged (EvNew (file_mode f) (file_size f)) σ0) in
              match rl with
              | Raise e =>
                  (Raise e,
                   logged (EvClose SourceImage) (logged (EvClose CanvasImage) σ2))
              | Return out =>
                  let '(r, σ3) := save out out_path (Some (file_format f)) σ2 in
                  (r, logged (EvClose SourceImage)
                        (logged (EvClose CanvasImage) σ3))
              end
          end
      end
  end.
Proof.
  unfold rearrange_tiles_with, Image_open, Image_new, with_closing, lift,
    call, raise, logged.
  unfold mbind, Py_bind, mret, Py_ret.
  destruct (files σ !! image_path) as [f|]; [|done].
  cbn [decode im_size im_mode im_format files calls].
  destruct (valid_input (file_size f) tile_size ordering) as [[]|e]; [|done..].
  cbn [negb].
  destruct (new_image (file_mode f) (file_size f)) as [canvas|e]; [|done].
  cbn [files calls].
  destruct (paste_loop _ _ _ _ _ _) as [[out|e] σ2]; [|done].
  by destruct (save _ _ _ _) as [r σ3].
Qed.

(** X6: the save is the only step that can change a file, and it comes
    last.  Whatever [save] does, a run either raises with every file as
    it was, or its result and its files are those of one call of [save]
    for [out_path] in the source's format, made on a canvas of the
    source's mode and size while every file was still as at the start. *)
Theorem rearrange_tiles_with_only_save_writes save σ image_path tile_size
    (ordering : list Z) out_path r σ' :
  rearrange_tiles_with save image_path tile_size ordering out_path σ = (r, σ') →
  ((∃ e, r = Raise e) ∧ files σ' = files σ) ∨
  (∃ f out σs σ'',
     files σ !! image_path = Some f ∧
     files σs = files σ ∧
     im_mode out = file_mode f ∧ im_size out = file_size f ∧
     save out out_path (Some (file_format f)) σs = (r, σ'') ∧
     files σ' = files σ'').
Proof.
  rewrite rearrange_tiles_with_cases. intros Hrun.
  destruct (files σ !! image_path) as [f|] eqn:Hf.
  2: { injection Hrun as <- <-. left. eauto. }
  cbn zeta in Hrun.
  destruct (valid_input (file_size f) tile_size ordering) as [[]|e].
  2, 3: injection Hrun as <- <-; left; eauto.
  pose proof (new_image_inv (file_mode f) (file_size f) _ eq_refl) as Hn.
  destruct (new_image (file_mode f) (file_size f)) as [canvas|e].
  2: { injection Hrun as <- <-. left. eauto. }
  destruct (paste_loop _ _ _ _ _ _) as [rl σ2] eqn:Hloop.
  apply paste_loop_inv in Hloop as [Hfiles Hr].
  destruct rl as [out|e].
  2: { injection Hrun as <- <-. left. eauto. }
  destruct (save out out_path (Some (file_format f)) σ2) as [r3 σ3] eqn:Hsave.
  injection Hrun as <- <-. right. exists f, out, σ2, σ3.
  destruct Hn as [Hcm Hcs], Hr as [Hom Hos].
  split_and!; try done; congruence.
Qed.

(** With a save that is denied, the run raises what the save raised. *)
Lemma rearrange_tiles_with_only_save_writes_witness :
  let run := rearrange_tiles_with save_denied "in42.png" (2, 2) [1; 0]
               "out.png" world0 in
  ((∃ e, run.1 = Raise e) ∧ files run.2 = files world0) ∨
  (∃ f out σs σ'',
     files world0 !! "in42.png" = Some f ∧
     files σs = files world0 ∧
     im_mode out = file_mode f ∧ im_size out = file_size f ∧
     save_denied out "out.png" (Some (file_format f)) σs = (run.1, σ'') ∧
     files run.2 = files σ'').
Proof.
  intros run.
  apply (rearrange_tiles_with_only_save_writes save_denied world0 "in42.png"
           (2, 2) [1; 0] "out.png").
  subst run. apply surjective_pairing.
Defined.


